(** * Looker content cleanup automation: the program of [main.py] and its properties

    The Cloud Function asks Looker's System Activity for unused and for
    trashed content, archives or purges every dashboard and Look it is told
    about, and schedules an e-mail with the list.  Everything it does is a
    call of the Looker SDK, so the development models the program as a
    state-and-exception computation over the history of its dealings with the
    outside world, and leaves the outside world (the Looker instance, the
    clock, the JSON decoder) universally quantified. *)

From Stdlib Require Import ZArith String Ascii List DecimalString DecimalZ Lia.
From stdpp Require Import base option list gmap strings.

Local Open Scope string_scope.
Local Open Scope Z_scope.
Local Open Scope list_scope.

(** ** Python values and exceptions *)

(** A cell of a query result, as [json.loads] hands it over: [None], a
    boolean, an integer or a string.  The rows of a Looker result in the
    [json] format are flat, so no nested value is modelled, and neither are
    floating-point cells. *)
Inductive value : Type :=
| VNone
| VBool (b : bool)
| VInt (n : Z)
| VStr (s : string).

(** What the program can see raised: the [KeyError] of a dictionary, or an
    [Exception] of any other class (an error of the SDK, of the transport, of
    the JSON decoder), with [message] its [str].  What is raised outside the
    [Exception] class (an interrupt, an exit) is not modelled. *)
Inductive exn : Type :=
| KeyError (key : string)
| Exception (message : string).

Inductive result (A : Type) : Type :=
| Ok (a : A)
| Raise (e : exn).

Arguments Ok {A} a.
Arguments Raise {A} e.

#[global] Instance result_ret : MRet result := fun A a => Ok a.

#[global] Instance result_bind : MBind result := fun A B f r =>
  match r with
  | Ok a => f a
  | Raise e => Raise e
  end.

(** [str(n)] for an [int]: decimal digits, a leading [-] when negative. *)
Definition str_int (n : Z) : string := NilZero.string_of_int (Z.to_int n).

(** [str(v)], which is also what an f-string puts in place of [{v}]. *)
Definition py_str (v : value) : string :=
  match v with
  | VNone => "None"
  | VBool true => "True"
  | VBool false => "False"
  | VInt n => str_int n
  | VStr s => s
  end.

(** [str(e)].  A [KeyError] shows the [repr] of its key; the keys this
    program looks up are three column names without quotes or escapes, for
    which the [repr] is the key between single quotes. *)
Definition str_exn (e : exn) : string :=
  match e with
  | KeyError key => "'" +:+ key +:+ "'"
  | Exception message => message
  end.

(** [v == s] for a string literal [s]: only an equal string compares equal. *)
Definition eq_str (v : value) (s : string) : bool :=
  match v with
  | VStr t => String.eqb t s
  | _ => false
  end.

(** [v is not None] *)
Definition is_not_None (v : value) : bool :=
  match v with
  | VNone => false
  | _ => true
  end.

(** ** Rows and the content selectors *)

(** A row of a query result is a [dict] from column names to cells. *)
Abbreviation row := (gmap string value).

(** [d[key]]: the cell, or [KeyError] when the dictionary has no such key. *)
Definition subscript (d : row) (key : string) : result value :=
  match d !! key with
  | Some v => Ok v
  | None => Raise (KeyError key)
  end.

(** [[elt(x) for x in l if cond(x)]]: the rows are visited in order, the
    condition is evaluated before the element, and the first exception ends
    the whole comprehension. *)
Fixpoint comprehension {A B : Type} (elt : A -> result B)
    (cond : A -> result bool) (l : list A) : result (list B) :=
  match l with
  | [] => Ok []
  | x :: rest =>
      c ← cond x;
      if (c : bool) then
        y ← elt x;
        ys ← comprehension elt cond rest;
        Ok (y :: ys)
      else comprehension elt cond rest
  end.

(** [a and b] on conditions: [b] is evaluated only when [a] holds. *)
Definition py_and (a b : result bool) : result bool :=
  x ← a; if (x : bool) then b else Ok false.

Definition get_dashboard_ids (content : list row) : result (list value) :=
  comprehension
    (fun dashboard => subscript dashboard "dashboard.id")
    (fun dashboard =>
       py_and
         (t ← subscript dashboard "content_usage.content_type";
          Ok (eq_str t "dashboard"))
         (i ← subscript dashboard "dashboard.id";
          Ok (is_not_None i)))
    content.

Definition get_look_ids (content : list row) : result (list value) :=
  comprehension
    (fun look => subscript look "look.id")
    (fun look =>
       t ← subscript look "content_usage.content_type";
       Ok (eq_str t "look"))
    content.

(** ** The SDK's models *)

Module models40.

Record WriteQuery : Type := {
  model : string;
  view : string;
  fields : list string;
  pivots : option (list string);
  fill_fields : option (list string);
  filters : gmap string string;
  filter_expression : string;
  sorts : list string;
  limit : string;
  dynamic_fields : option string
}.

(** Of the query the instance registers, the program reads the [id]. *)
Record Query : Type := { id : string }.

(** [WriteDashboard(deleted=...)]: every other attribute is left unset. *)
Record WriteDashboard : Type := { dashboard_deleted : option bool }.

(** [WriteLookWithQuery(deleted=...)] *)
Record WriteLookWithQuery : Type := { look_deleted : option bool }.

Record ScheduledPlanDestination : Type := {
  format : string;
  type : string;
  address : string;
  message : string;
  apply_formatting : bool;
  apply_vis : bool
}.

Record WriteScheduledPlan : Type := {
  name : string;
  query_id : string;
  scheduled_plan_destination : list ScheduledPlanDestination
}.

(** What the update and scheduling calls answer; the program reads none of
    their attributes. *)
Record Dashboard : Type := { dashboard_title : string }.
Record LookWithQuery : Type := { look_title : string }.
Record ScheduledPlan : Type := { plan_name : string }.

End models40.

Import models40.

(** ** The history of a run *)

(** The four mutators of the program. *)
Inductive mutator : Type :=
| SoftDeleteDashboard
| SoftDeleteLook
| HardDeleteDashboard
| HardDeleteLook.

(** One entry per dealing with the outside world, with what came back: the
    seven methods of the SDK the automation is written against (the two
    irreversible ones included), and a reading of the clock.  [Entered] is a
    mark left when a mutator is entered; it is no call of anything and has no
    counterpart in the source, it only makes the order in which the mutators
    run observable where they call nothing. *)
Inductive event : Type :=
| Entered (op : mutator) (id : value)
| CreateQuery (body : WriteQuery) (out : result Query)
| RunQuery (query_id result_format : string) (cache : bool)
    (out : result string)
| UpdateDashboard (dashboard_id : string) (body : WriteDashboard)
    (out : result Dashboard)
| UpdateLook (look_id : string) (body : WriteLookWithQuery)
    (out : result LookWithQuery)
| DeleteDashboard (dashboard_id : string) (out : result string)
| DeleteLook (look_id : string) (out : result string)
| ScheduledPlanRunOnce (body : WriteScheduledPlan)
    (out : result ScheduledPlan)
| Today (date : string).

(** The outside world.  Each method of the SDK answers a request, or raises,
    as it pleases, given everything that happened before; [today] is
    [datetime.today().strftime('%Y-%m-%d')] at that point of the run.
    [json_loads] is [json.loads] on the payloads of [run_query], typed at the
    shape the selectors document for their argument: a list of dictionaries;
    on any other text it raises. *)
Record Env : Type := {
  create_query : list event -> WriteQuery -> result Query;
  run_query : list event -> string -> string -> bool -> result string;
  update_dashboard :
    list event -> string -> WriteDashboard -> result Dashboard;
  update_look :
    list event -> string -> WriteLookWithQuery -> result LookWithQuery;
  delete_dashboard : list event -> string -> result string;
  delete_look : list event -> string -> result string;
  scheduled_plan_run_once :
    list event -> WriteScheduledPlan -> result ScheduledPlan;
  today : list event -> string;
  json_loads : string -> result (list row)
}.

(** ** Computations: a history threaded through, and exceptions *)

Definition M (A : Type) : Type := list event -> result A * list event.

#[global] Instance M_ret : MRet M := fun A a h => (Ok a, h).

#[global] Instance M_bind : MBind M := fun A B f m h =>
  match m h with
  | (Ok a, h') => f a h'
  | (Raise e, h') => (Raise e, h')
  end.

(** A pure step that may raise. *)
Definition lift {A : Type} (r : result A) : M A := fun h => (r, h).

(** Put an entry at the end of the history and go on with what came back. *)
Definition perform {A : Type} (ask : list event -> result A)
    (entry : result A -> event) : M A :=
  fun h => let out := ask h in (out, h ++ [entry out]).

Definition mark (e : event) : M unit := fun h => (Ok tt, h ++ [e]).

(** [try: body except Exception as e: handler(e)] *)
Definition try_except {A : Type} (body : M A) (handler : exn -> M A) : M A :=
  fun h =>
    match body h with
    | (Ok a, h') => (Ok a, h')
    | (Raise e, h') => handler e h'
    end.

(** [for x in l: body(x)]; an exception out of the body leaves the loop. *)
Fixpoint for_ {A B : Type} (l : list A) (body : A -> M B) : M unit :=
  match l with
  | [] => mret tt
  | x :: rest => _ ← body x; for_ rest body
  end.

(** ** Strings *)

(** [str.capitalize] on ASCII text: the first character in upper case, the
    others in lower case; characters that are not ASCII letters are kept. *)
Definition upper (c : ascii) : ascii :=
  let n := nat_of_ascii c in
  if ((97 <=? n) && (n <=? 122))%nat then ascii_of_nat (n - 32) else c.

Definition lower (c : ascii) : ascii :=
  let n := nat_of_ascii c in
  if ((65 <=? n) && (n <=? 90))%nat then ascii_of_nat (n + 32) else c.

Fixpoint lowercase (s : string) : string :=
  match s with
  | EmptyString => EmptyString
  | String c rest => String (lower c) (lowercase rest)
  end.

Definition capitalize (s : string) : string :=
  match s with
  | EmptyString => EmptyString
  | String c rest => String (upper c) (lowercase rest)
  end.

(** A text between double quotes, for the JSON literal below. *)
Definition quoted (s : string) : string :=
  String "034"%char (s +:+ String "034"%char EmptyString).

(** ** The program *)

(** The configuration at the head of the module. *)
Definition DAYS_BEFORE_SOFT_DELETE : Z := 90.
Definition DAYS_BEFORE_HARD_DELETE : Z := 90.
Definition NOTIFICATION_EMAIL_ADDRESS : string := "email@address.com".

Section Automation.

Context (env : Env).

(** The methods of the module's [sdk] object, and the clock. *)
Definition sdk_create_query (body : WriteQuery) : M Query :=
  perform (fun h => create_query env h body) (CreateQuery body).

Definition sdk_run_query (query_id result_format : string) (cache : bool)
    : M string :=
  perform (fun h => run_query env h query_id result_format cache)
    (RunQuery query_id result_format cache).

Definition sdk_update_dashboard (dashboard_id : string)
    (body : WriteDashboard) : M Dashboard :=
  perform (fun h => update_dashboard env h dashboard_id body)
    (UpdateDashboard dashboard_id body).

Definition sdk_update_look (look_id : string) (body : WriteLookWithQuery)
    : M LookWithQuery :=
  perform (fun h => update_look env h look_id body)
    (UpdateLook look_id body).

Definition sdk_scheduled_plan_run_once (body : WriteScheduledPlan)
    : M ScheduledPlan :=
  perform (fun h => scheduled_plan_run_once env h body)
    (ScheduledPlanRunOnce body).

Definition datetime_today : M string :=
  fun h => let date := today env h in (Ok date, h ++ [Today date]).

(** The body of the first query: content not used for [days] days. *)
Definition unused_content_query (days : Z) : WriteQuery :=
  {|
    model := "system__activity";
    view := "content_usage";
    fields := [
      "dashboard.id";
      "look.id";
      "content_usage.content_title";
      "content_usage.content_type";
      "content_usage.last_accessed_date"
    ];
    pivots := None;
    fill_fields := None;
    filters := {[
      "content_usage.days_since_last_accessed" := ">" +:+ str_int days;
      "content_usage.content_type" := "dashboard,look";
      "_dashboard_linked_looks.is_used_on_dashboard" := "No";
      "look.public" := "No"
    ]};
    filter_expression :=
      "if(is_null(${dashboard.deleted_date}) = no OR is_null(${look.deleted_date}) = no,no,yes)";
    sorts := ["content_usage.last_accessed_date"];
    limit := "50000";
    dynamic_fields := None
  |}.

Definition get_unused_content_query_id (days : Z) : M string :=
  let unused_content_query := unused_content_query days in
  unused_content_query ← sdk_create_query unused_content_query;
  mret (id unused_content_query).

Definition get_unused_content (query_id : string) : M (list row) :=
  payload ← sdk_run_query query_id "json" true;
  unused_content ← lift (json_loads env payload);
  mret unused_content.

(** The JSON text of the computed dimension, with the twelve blanks each
    continued line of the literal starts with. *)
Definition days_since_moved_to_trash_dimension : string :=
  let blanks := "            " in
  "[{" +:+ quoted "category" +:+ ":" +:+ quoted "dimension" +:+ ","
  +:+ blanks +:+ quoted "expression" +:+ ":"
  +:+ quoted "diff_days(coalesce(${dashboard.deleted_date},${look.deleted_date}), now())"
  +:+ ","
  +:+ blanks +:+ quoted "label" +:+ ":"
  +:+ quoted "Days Since Moved to Trash" +:+ ","
  +:+ blanks +:+ quoted "value_format" +:+ ":null,"
  +:+ blanks +:+ quoted "value_format_name" +:+ ":null,"
  +:+ blanks +:+ quoted "dimension" +:+ ":"
  +:+ quoted "days_since_moved_to_trash" +:+ ","
  +:+ blanks +:+ quoted "_kind_hint" +:+ ":" +:+ quoted "dimension" +:+ ","
  +:+ blanks +:+ quoted "_type_hint" +:+ ":" +:+ quoted "number" +:+ "}]".

(** The body of the second query: content in the trash for [days] days. *)
Definition deleted_query (days : Z) : WriteQuery :=
  {|
    model := "system__activity";
    view := "content_usage";
    fields := [
      "dashboard.id";
      "look.id";
      "content_usage.content_title";
      "content_usage.content_type";
      "content_usage.last_accessed_date";
      "dashboard.deleted_date";
      "look.deleted_date"
    ];
    dynamic_fields := Some days_since_moved_to_trash_dimension;
    pivots := None;
    fill_fields := None;
    filters := {[
      "content_usage.content_type" := "dashboard,look";
      "days_since_moved_to_trash" := ">" +:+ str_int days
    ]};
    filter_expression :=
      "if(is_null(${dashboard.deleted_date}) = no OR is_null(${look.deleted_date}) = no,yes,no)";
    sorts := ["content_usage.last_accessed_date"];
    limit := "50000"
  |}.

Definition get_deleted_content_query_id (days : Z) : M string :=
  let deleted_query := deleted_query days in
  trashed_content_query ← sdk_create_query deleted_query;
  mret (id trashed_content_query).

Definition get_deleted_content (query_id : string) : M (list row) :=
  payload ← sdk_run_query query_id "json" true;
  unused_content ← lift (json_loads env payload);
  mret unused_content.

(** The destination and the plan of the e-mail, for a kind of deletion and
    a date. *)
Definition scheduled_plan_destination_body
    (delete_type address date_today : string) : ScheduledPlanDestination :=
  {|
    format := "csv";
    type := "email";
    address := address;
    message :=
      "List of dashboards and Looks that were " +:+ delete_type
      +:+ " deleted on " +:+ date_today +:+ "."
      +:+ "        Note, LookML dashboards are unaffected by this automation, the dashboard lkml file has to be deleted from its LookML project.";
    apply_formatting := false;
    apply_vis := false
  |}.

Definition unused_content_notification
    (query_id delete_type address date_today : string)
    : WriteScheduledPlan :=
  {|
    name :=
      "[Looker Automation] " +:+ capitalize delete_type
      +:+ " deleted content (" +:+ date_today +:+ ").";
    query_id := query_id;
    scheduled_plan_destination :=
      [scheduled_plan_destination_body delete_type address date_today]
  |}.

(** What comes back is the plan the instance scheduled, or the text of the
    error. *)
Definition send_content_notification
    (query_id delete_type address : string)
    : M (ScheduledPlan + string) :=
  date_today ← datetime_today;
  let unused_content_notification :=
    unused_content_notification query_id delete_type address date_today in
  try_except
    (send_notification ←
       sdk_scheduled_plan_run_once unused_content_notification;
     mret (inl send_notification))
    (fun e =>
       mret (inr ("Error sending " +:+ delete_type
                  +:+ " delete email notification (" +:+ date_today
                  +:+ "): " +:+ str_exn e))).

Definition soft_delete_dashboard (dashboard_id : value) : M string :=
  _ ← mark (Entered SoftDeleteDashboard dashboard_id);
  let dashboard := {| dashboard_deleted := Some false |} in
  try_except
    (_ ← sdk_update_dashboard (py_str dashboard_id) dashboard;
     mret ("Successfully soft deleted dashboard: " +:+ py_str dashboard_id))
    (fun e =>
       mret ("Error with soft deleting dashboard (" +:+ py_str dashboard_id
             +:+ "): " +:+ str_exn e)).

Definition soft_delete_look (look_id : value) : M string :=
  _ ← mark (Entered SoftDeleteLook look_id);
  let look := {| look_deleted := Some false |} in
  try_except
    (_ ← sdk_update_look (py_str look_id) look;
     mret ("Successfully soft deleted Look: " +:+ py_str look_id))
    (fun e =>
       mret ("Error with soft deleting Look (" +:+ py_str look_id
             +:+ "): " +:+ str_exn e)).

(** The call of [sdk.delete_dashboard] is a comment in the source, so the
    [try] holds the [return] alone. *)
Definition hard_delete_dashboard (dashboard_id : value) : M string :=
  _ ← mark (Entered HardDeleteDashboard dashboard_id);
  try_except
    (mret ("Successfully permanently deleted dashboard: "
           +:+ py_str dashboard_id))
    (fun e =>
       mret ("Error with permanently deleting dashboard ("
             +:+ py_str dashboard_id +:+ "): " +:+ str_exn e)).

(** Likewise for [sdk.delete_look]. *)
Definition hard_delete_look (look_id : value) : M string :=
  _ ← mark (Entered HardDeleteLook look_id);
  try_except
    (mret ("Successfully permanently deleted Look: " +:+ py_str look_id))
    (fun e =>
       mret ("Error with permanently deleting Look (" +:+ py_str look_id
             +:+ "): " +:+ str_exn e)).

(** The entry point; the request it is handed is never looked at. *)
Definition main {R : Type} (request : R) : M string :=
  unused_content_query_id ←
    get_unused_content_query_id DAYS_BEFORE_SOFT_DELETE;
  unused_content ← get_unused_content unused_content_query_id;
  unused_dashboard_ids ← lift (get_dashboard_ids unused_content);
  unused_look_ids ← lift (get_look_ids unused_content);
  _ ← for_ unused_dashboard_ids soft_delete_dashboard;
  _ ← for_ unused_look_ids soft_delete_look;
  _ ← send_content_notification
        unused_content_query_id "soft" NOTIFICATION_EMAIL_ADDRESS;
  deleted_content_query_id ←
    get_deleted_content_query_id DAYS_BEFORE_HARD_DELETE;
  deleted_content ← get_deleted_content deleted_content_query_id;
  deleted_dashboard_ids ← lift (get_dashboard_ids deleted_content);
  deleted_look_ids ← lift (get_look_ids deleted_content);
  _ ← for_ deleted_dashboard_ids hard_delete_dashboard;
  _ ← for_ deleted_look_ids hard_delete_look;
  _ ← send_content_notification
        deleted_content_query_id "hard" NOTIFICATION_EMAIL_ADDRESS;
  mret "Successfully ran soft delete and hard delete content automation.".

End Automation.

(** ** The selectors, read from the specification *)

#[global] Instance value_eq_dec : EqDecision value.
Proof. solve_decision. Defined.

(** The row's content type is the given one. *)
Definition has_type (kind : string) (r : row) : bool :=
  bool_decide (r !! "content_usage.content_type" = Some (VStr kind)).

(** The row has a cell in the column, and the cell is not null. *)
Definition non_null (column : string) (r : row) : bool :=
  match r !! column with
  | Some VNone | None => false
  | Some _ => true
  end.

(** The dashboard ids of the rows whose content type is [dashboard] and whose
    dashboard id is not null, in the order of the rows. *)
Definition dashboardIds (rows : list row) : list value :=
  omap (fun r => r !! "dashboard.id")
    (List.filter (fun r => has_type "dashboard" r && non_null "dashboard.id" r)
       rows).

(** The look ids, as they are, of the rows whose content type is [look]. *)
Definition lookIds (rows : list row) : list value :=
  omap (fun r => r !! "look.id") (List.filter (has_type "look") rows).

(** A row the dashboard selector can read: it has a content type, and a
    dashboard id (null or not) when that type is [dashboard]. *)
Definition dashboard_readable (r : row) : Prop :=
  is_Some (r !! "content_usage.content_type")
  /\ (r !! "content_usage.content_type" = Some (VStr "dashboard") ->
      is_Some (r !! "dashboard.id")).

(** A row the look selector can read. *)
Definition look_readable (r : row) : Prop :=
  is_Some (r !! "content_usage.content_type")
  /\ (r !! "content_usage.content_type" = Some (VStr "look") ->
      is_Some (r !! "look.id")).

(** ** What a history shows *)

(** The mutators entered, with their arguments, oldest first. *)
Definition entered (h : list event) : list (mutator * value) :=
  flat_map (fun e => match e with Entered op i => [(op, i)] | _ => [] end) h.

(** The payloads [run_query] answered, oldest first. *)
Definition payloads (h : list event) : list string :=
  flat_map
    (fun e => match e with RunQuery _ _ _ (Ok text) => [text] | _ => [] end)
    h.

(** The entries that are calls of the SDK. *)
Definition is_remote_call (e : event) : bool :=
  match e with
  | Entered _ _ | Today _ => false
  | _ => true
  end.

Definition remote_calls (h : list event) : list event :=
  List.filter is_remote_call h.

(** The mutator of each name. *)
Definition run_mutator (env : Env) (op : mutator) : value -> M string :=
  match op with
  | SoftDeleteDashboard => soft_delete_dashboard env
  | SoftDeleteLook => soft_delete_look env
  | HardDeleteDashboard => hard_delete_dashboard
  | HardDeleteLook => hard_delete_look
  end.

(** The mutators one pass has to enter for a payload: the dashboards of the
    decoded rows, then the looks, each in the order of the rows; none when
    the payload cannot be decoded or a selector raises. *)
Definition pass_order (env : Env) (on_dashboard on_look : mutator)
    (payload : string) : list (mutator * value) :=
  match
    rows ← json_loads env payload;
    dashboard_ids ← get_dashboard_ids rows;
    look_ids ← get_look_ids rows;
    Ok (map (pair on_dashboard) dashboard_ids ++ map (pair on_look) look_ids)
  with
  | Ok order => order
  | Raise _ => []
  end.

(** The mutators a run has to enter for the payloads it was answered: those
    of the soft-delete pass for the first, those of the hard-delete pass for
    the second. *)
Definition run_order (env : Env) (answered : list string)
    : list (mutator * value) :=
  match answered with
  | [] => []
  | unused :: answered' =>
      pass_order env SoftDeleteDashboard SoftDeleteLook unused
      ++ match answered' with
         | [] => []
         | trashed :: _ =>
             pass_order env HardDeleteDashboard HardDeleteLook trashed
         end
  end.

(** A payload the selection of a pass goes through with: it decodes to rows
    both selectors return a list for. *)
Definition selectable (env : Env) (payload : string) : Prop :=
  exists (rows : list row) (dashboard_ids look_ids : list value),
    json_loads env payload = Ok rows
    /\ get_dashboard_ids rows = Ok dashboard_ids
    /\ get_look_ids rows = Ok look_ids.

(** Both passes got their payload and went through their selection. *)
Definition both_passes_complete (env : Env) (answered : list string) : Prop :=
  exists unused trashed : string,
    answered = [unused; trashed]
    /\ selectable env unused /\ selectable env trashed.

(** One pass of [main] from the running of its query on, and what follows
    it: the shape both halves of [main] have. *)
Definition pass {A : Type} (env : Env) (on_dashboard on_look : mutator)
    (query_id delete_type : string) (next : M A) : M A :=
  content ← get_unused_content env query_id;
  dashboard_ids ← lift (get_dashboard_ids content);
  look_ids ← lift (get_look_ids content);
  _ ← for_ dashboard_ids (run_mutator env on_dashboard);
  _ ← for_ look_ids (run_mutator env on_look);
  _ ← send_content_notification env query_id delete_type
        NOTIFICATION_EMAIL_ADDRESS;
  next.

(** What [main] returns. *)
Definition main_status : string :=
  "Successfully ran soft delete and hard delete content automation.".

(** [needle] is a part of [s]. *)
Definition occurs_in (needle s : string) : Prop :=
  exists before after : string, s = before +:+ needle +:+ after.

(** Modelled from the spec: how the remote query engine, which is not in the
    repository, reads the numeric filter [>n] of a query definition: a row
    passes when its number is strictly greater than [n].  Filters of another
    form are not read. *)
Definition number_filter_admits (filter : string) (x : Z) : option bool :=
  match filter with
  | String ">" digits =>
      match NilZero.int_of_string digits with
      | Some n => Some (Z.of_int n <? x)
      | None => None
      end
  | _ => None
  end.

(** The text a mutator returns for what its remote call answered. *)
Definition outcome_text {A : Type} (success failure : string)
    (out : result A) : string :=
  match out with
  | Ok _ => success
  | Raise e => failure +:+ str_exn e
  end.

(** The two texts of each mutator. *)
Definition success_text (op : mutator) (i : value) : string :=
  match op with
  | SoftDeleteDashboard => "Successfully soft deleted dashboard: " +:+ py_str i
  | SoftDeleteLook => "Successfully soft deleted Look: " +:+ py_str i
  | HardDeleteDashboard =>
      "Successfully permanently deleted dashboard: " +:+ py_str i
  | HardDeleteLook => "Successfully permanently deleted Look: " +:+ py_str i
  end.

Definition error_text (op : mutator) (i : value) (e : exn) : string :=
  match op with
  | SoftDeleteDashboard =>
      "Error with soft deleting dashboard (" +:+ py_str i +:+ "): "
      +:+ str_exn e
  | SoftDeleteLook =>
      "Error with soft deleting Look (" +:+ py_str i +:+ "): " +:+ str_exn e
  | HardDeleteDashboard =>
      "Error with permanently deleting dashboard (" +:+ py_str i +:+ "): "
      +:+ str_exn e
  | HardDeleteLook =>
      "Error with permanently deleting Look (" +:+ py_str i +:+ "): "
      +:+ str_exn e
  end.

(** ** A sample run *)

Definition dashboard_row (i : value) : row :=
  {[ "dashboard.id" := i; "look.id" := VNone;
     "content_usage.content_type" := VStr "dashboard" ]}.

Definition look_row (i : value) : row :=
  {[ "dashboard.id" := VNone; "look.id" := i;
     "content_usage.content_type" := VStr "look" ]}.

Definition sample_unused : list row :=
  [dashboard_row (VStr "1"); look_row (VInt 9); dashboard_row VNone;
   dashboard_row (VStr "1"); look_row VNone; dashboard_row (VStr "7")].

Definition sample_trashed : list row :=
  [look_row (VInt 4); dashboard_row (VStr "12")].

(** Rows the selectors cannot read. *)
Definition untyped_row : row := {[ "dashboard.id" := VStr "3" ]}.

Definition dashboard_row_without_id : row :=
  {[ "content_usage.content_type" := VStr "dashboard" ]}.

Definition look_row_without_id : row :=
  {[ "content_usage.content_type" := VStr "look"; "dashboard.id" := VNone ]}.

(** An instance that names the two queries after what they select, answers
    a query with its own name as payload, refuses to update dashboard [1] and
    cannot schedule anything. *)
Definition sample_env : Env := {|
  create_query _ body :=
    Ok {| id := match dynamic_fields body with
                | Some _ => "trashed"
                | None => "unused"
                end |};
  run_query _ query_id _ _ := Ok query_id;
  update_dashboard _ dashboard_id _ :=
    if String.eqb dashboard_id "1" then Raise (Exception "404 Not Found")
    else Ok {| dashboard_title := dashboard_id |};
  update_look _ look_id _ := Ok {| look_title := look_id |};
  delete_dashboard _ _ := Ok EmptyString;
  delete_look _ _ := Ok EmptyString;
  scheduled_plan_run_once _ _ := Raise (Exception "scheduler unavailable");
  today _ := "2023-03-01";
  json_loads text :=
    if String.eqb text "unused" then Ok sample_unused
    else if String.eqb text "trashed" then Ok sample_trashed
    else Raise (Exception "Expecting value: line 1 column 1 (char 0)")
|}.

(** ** Requests, without their answers *)

(** What a call of the SDK asks, whatever it is answered. *)
Inductive sdk_request : Type :=
| AskCreateQuery (body : WriteQuery)
| AskRunQuery (query_id result_format : string) (cache : bool)
| AskUpdateDashboard (dashboard_id : string) (body : WriteDashboard)
| AskUpdateLook (look_id : string) (body : WriteLookWithQuery)
| AskDeleteDashboard (dashboard_id : string)
| AskDeleteLook (look_id : string)
| AskScheduledPlanRunOnce (body : WriteScheduledPlan).

Definition request_of (e : event) : option sdk_request :=
  match e with
  | Entered _ _ | Today _ => None
  | CreateQuery body _ => Some (AskCreateQuery body)
  | RunQuery query_id result_format cache _ =>
      Some (AskRunQuery query_id result_format cache)
  | UpdateDashboard dashboard_id body _ =>
      Some (AskUpdateDashboard dashboard_id body)
  | UpdateLook look_id body _ => Some (AskUpdateLook look_id body)
  | DeleteDashboard dashboard_id _ => Some (AskDeleteDashboard dashboard_id)
  | DeleteLook look_id _ => Some (AskDeleteLook look_id)
  | ScheduledPlanRunOnce body _ => Some (AskScheduledPlanRunOnce body)
  end.

(** The requests of a history, oldest first. *)
Definition requests (h : list event) : list sdk_request := omap request_of h.

(** The request a mutator sends for an id: the update with [deleted] set to
    [False] for the two that archive, none for the two that purge. *)
Definition mutator_requests (op : mutator) (i : value) : list sdk_request :=
  match op with
  | SoftDeleteDashboard =>
      [AskUpdateDashboard (py_str i) {| dashboard_deleted := Some false |}]
  | SoftDeleteLook =>
      [AskUpdateLook (py_str i) {| look_deleted := Some false |}]
  | HardDeleteDashboard | HardDeleteLook => []
  end.

(** An entry that removes no content and moves none to the trash: it is no
    deletion, and when it is an update its body has [deleted] set to
    [False]. *)
Definition changes_no_content (e : event) : Prop :=
  match e with
  | DeleteDashboard _ _ | DeleteLook _ _ => False
  | UpdateDashboard _ body _ => dashboard_deleted body = Some false
  | UpdateLook _ body _ => look_deleted body = Some false
  | _ => True
  end.

(** A computation that, from any history, only adds entries, and only such
    as satisfy [P]. *)
Definition adds_only {A : Type} (P : event -> Prop) (m : M A) : Prop :=
  forall h : list event,
    exists added : list event, snd (m h) = h ++ added /\ Forall P added.

(** The rows a selector for [kind] looks at beyond their type: those without
    a type, which make it raise, and those of type [kind]. *)
Definition concerns (kind : string) (r : row) : bool :=
  match r !! "content_usage.content_type" with
  | Some t => eq_str t kind
  | None => true
  end.

(** ** Instances that fail *)

(** The sample instance, but one that can be made to refuse to register a
    query, to time out on running one, or to answer with a payload that is no
    JSON, and whose payloads otherwise decode to the given rows. *)
Definition failing_env (at_create at_run at_decode : bool)
    (rows : list row) : Env := {|
  create_query h body :=
    if at_create then Raise (Exception "403 Forbidden")
    else create_query sample_env h body;
  run_query h query_id result_format cache :=
    if at_run then Raise (Exception "504 Gateway Timeout")
    else run_query sample_env h query_id result_format cache;
  update_dashboard := update_dashboard sample_env;
  update_look := update_look sample_env;
  delete_dashboard := delete_dashboard sample_env;
  delete_look := delete_look sample_env;
  scheduled_plan_run_once := scheduled_plan_run_once sample_env;
  today := today sample_env;
  json_loads _ :=
    if at_decode
    then Raise (Exception "Expecting value: line 1 column 1 (char 0)")
    else Ok rows
|}.

(** * Properties *)

(** ** Properties of the selectors *)

Lemma eq_str_true (t : value) (s : string) :
  eq_str t s = true <-> t = VStr s.
Proof.
  destruct t as [| b | n | u]; simpl; try (split; discriminate).
  rewrite String.eqb_eq. split; congruence.
Qed.

Lemma has_type_spec (kind : string) (r : row) :
  has_type kind r = true
  <-> r !! "content_usage.content_type" = Some (VStr kind).
Proof. unfold has_type. apply bool_decide_eq_true. Qed.

Lemma has_type_eq_str (kind : string) (r : row) (t : value) :
  r !! "content_usage.content_type" = Some t ->
  has_type kind r = eq_str t kind.
Proof.
  intros Ht. destruct (eq_str t kind) eqn:E.
  - apply has_type_spec. apply eq_str_true in E. congruence.
  - destruct (has_type kind r) eqn:F; [| reflexivity].
    apply has_type_spec in F. rewrite Ht in F. injection F as ->.
    simpl in E. rewrite String.eqb_refl in E. discriminate.
Qed.

(** One step of each comprehension, lookups laid bare. *)
Lemma get_dashboard_ids_cons (r : row) (rest : list row) :
  get_dashboard_ids (r :: rest) =
  match r !! "content_usage.content_type" with
  | None => Raise (KeyError "content_usage.content_type")
  | Some t =>
      if eq_str t "dashboard" then
        match r !! "dashboard.id" with
        | None => Raise (KeyError "dashboard.id")
        | Some i =>
            if is_not_None i then
              match get_dashboard_ids rest with
              | Ok ids => Ok (i :: ids)
              | Raise e => Raise e
              end
            else get_dashboard_ids rest
        end
      else get_dashboard_ids rest
  end.
Proof.
  unfold get_dashboard_ids at 1. cbn [comprehension].
  unfold py_and, subscript, mbind, result_bind.
  destruct (r !! "content_usage.content_type") as [t |]; [| reflexivity].
  destruct (eq_str t "dashboard"); [| reflexivity].
  destruct (r !! "dashboard.id") as [i |]; [| reflexivity].
  destruct (is_not_None i); reflexivity.
Qed.

Lemma get_look_ids_cons (r : row) (rest : list row) :
  get_look_ids (r :: rest) =
  match r !! "content_usage.content_type" with
  | None => Raise (KeyError "content_usage.content_type")
  | Some t =>
      if eq_str t "look" then
        match r !! "look.id" with
        | None => Raise (KeyError "look.id")
        | Some i =>
            match get_look_ids rest with
            | Ok ids => Ok (i :: ids)
            | Raise e => Raise e
            end
        end
      else get_look_ids rest
  end.
Proof.
  unfold get_look_ids at 1. cbn [comprehension].
  unfold subscript, mbind, result_bind.
  destruct (r !! "content_usage.content_type") as [t |]; [| reflexivity].
  destruct (eq_str t "look"); [| reflexivity].
  destruct (r !! "look.id") as [i |]; reflexivity.
Qed.

Lemma non_null_lookup (column : string) (r : row) (i : value) :
  r !! column = Some i -> non_null column r = is_not_None i.
Proof. intros E. unfold non_null. rewrite E. destruct i; reflexivity. Qed.

Lemma get_look_ids_readable (content : list row) :
  Forall look_readable content ->
  get_look_ids content = Ok (lookIds content).
Proof.
  induction 1 as [| r rest [[t Ht] Hid] _ IH]; [reflexivity |].
  rewrite get_look_ids_cons, IH, Ht.
  unfold lookIds. cbn [List.filter].
  rewrite (has_type_eq_str _ _ _ Ht).
  destruct (eq_str t "look") eqn:E; [| reflexivity].
  apply eq_str_true in E. subst t.
  destruct (Hid Ht) as [i Hi]. rewrite Hi. cbn [omap list_omap]. rewrite Hi.
  reflexivity.
Qed.

Lemma get_dashboard_ids_readable (content : list row) :
  Forall dashboard_readable content ->
  get_dashboard_ids content = Ok (dashboardIds content).
Proof.
  induction 1 as [| r rest [[t Ht] Hid] _ IH]; [reflexivity |].
  rewrite get_dashboard_ids_cons, IH, Ht.
  unfold dashboardIds. cbn [List.filter].
  rewrite (has_type_eq_str _ _ _ Ht).
  destruct (eq_str t "dashboard") eqn:E; [| reflexivity].
  apply eq_str_true in E. subst t.
  destruct (Hid Ht) as [i Hi]. rewrite Hi, (non_null_lookup _ _ _ Hi).
  destruct (is_not_None i); [| reflexivity].
  cbn [andb omap list_omap]. rewrite Hi. reflexivity.
Qed.

(** What makes each selector raise: a row it cannot read, and the exception
    is the [KeyError] of the first such row. *)
Lemma get_dashboard_ids_raises (content : list row) :
  (exists r : row,
     r ∈ content
     /\ (r !! "content_usage.content_type" = None
         \/ (r !! "content_usage.content_type" = Some (VStr "dashboard")
             /\ r !! "dashboard.id" = None)))
  <-> exists key : string, get_dashboard_ids content = Raise (KeyError key).
Proof.
  induction content as [| r rest IH].
  - split; [intros (r & Hin & _); inversion Hin | intros [key H]; discriminate].
  - rewrite get_dashboard_ids_cons.
    destruct (r !! "content_usage.content_type") as [t |] eqn:Ht.
    + destruct (eq_str t "dashboard") eqn:E.
      * apply eq_str_true in E. subst t.
        destruct (r !! "dashboard.id") as [i |] eqn:Hi.
        -- assert (Hsame :
             (exists key,
                (if is_not_None i
                 then match get_dashboard_ids rest with
                      | Ok ids => Ok (i :: ids)
                      | Raise e => Raise e
                      end
                 else get_dashboard_ids rest) = Raise (KeyError key))
             <-> exists key, get_dashboard_ids rest = Raise (KeyError key)).
           { destruct (is_not_None i); [| reflexivity].
             destruct (get_dashboard_ids rest);
               split; intros [key H]; exists key; congruence. }
           rewrite Hsame, <- IH. split.
           ++ intros (r' & Hin & Hbad).
              apply elem_of_cons in Hin as [-> | Hin].
              ** destruct Hbad as [Hbad | [_ Hbad]]; congruence.
              ** exists r'. auto.
           ++ intros (r' & Hin & Hbad). exists r'. split; [right |]; auto.
        -- split; [eauto |]. intros _. exists r. split; [left | right; auto].
      * rewrite <- IH. split.
        -- intros (r' & Hin & Hbad).
           apply elem_of_cons in Hin as [-> | Hin].
           ++ destruct Hbad as [Hbad | [Hbad _]]; [congruence |].
              rewrite Ht in Hbad. injection Hbad as ->. discriminate E.
           ++ exists r'. auto.
        -- intros (r' & Hin & Hbad). exists r'. split; [right |]; auto.
    + split; [eauto |]. intros _. exists r. split; [left | left; auto].
Qed.

Lemma get_look_ids_raises (content : list row) :
  (exists r : row,
     r ∈ content
     /\ (r !! "content_usage.content_type" = None
         \/ (r !! "content_usage.content_type" = Some (VStr "look")
             /\ r !! "look.id" = None)))
  <-> exists key : string, get_look_ids content = Raise (KeyError key).
Proof.
  induction content as [| r rest IH].
  - split; [intros (r & Hin & _); inversion Hin | intros [key H]; discriminate].
  - rewrite get_look_ids_cons.
    destruct (r !! "content_usage.content_type") as [t |] eqn:Ht.
    + destruct (eq_str t "look") eqn:E.
      * apply eq_str_true in E. subst t.
        destruct (r !! "look.id") as [i |] eqn:Hi.
        -- assert (Hsame :
             (exists key,
                match get_look_ids rest with
                | Ok ids => Ok (i :: ids)
                | Raise e => Raise e
                end = Raise (KeyError key))
             <-> exists key, get_look_ids rest = Raise (KeyError key)).
           { destruct (get_look_ids rest);
               split; intros [key H]; exists key; congruence. }
           rewrite Hsame, <- IH. split.
           ++ intros (r' & Hin & Hbad).
              apply elem_of_cons in Hin as [-> | Hin].
              ** destruct Hbad as [Hbad | [_ Hbad]]; congruence.
              ** exists r'. auto.
           ++ intros (r' & Hin & Hbad). exists r'. split; [right |]; auto.
        -- split; [eauto |]. intros _. exists r. split; [left | right; auto].
      * rewrite <- IH. split.
        -- intros (r' & Hin & Hbad).
           apply elem_of_cons in Hin as [-> | Hin].
           ++ destruct Hbad as [Hbad | [Hbad _]]; [congruence |].
              rewrite Ht in Hbad. injection Hbad as ->. discriminate E.
           ++ exists r'. auto.
        -- intros (r' & Hin & Hbad). exists r'. split; [right |]; auto.
    + split; [eauto |]. intros _. exists r. split; [left | left; auto].
Qed.

(** A selector that returns could read every row. *)
Lemma get_dashboard_ids_returns_readable
    (content : list row) (ids : list value) :
  get_dashboard_ids content = Ok ids -> Forall dashboard_readable content.
Proof.
  intros Hok. apply Forall_forall. intros r Hin.
  assert (Hgood : ~ exists key, get_dashboard_ids content = Raise (KeyError key)).
  { intros [key H]. congruence. }
  rewrite <- get_dashboard_ids_raises in Hgood.
  split.
  - destruct (r !! "content_usage.content_type") eqn:Ht; [eauto |].
    destruct Hgood. exists r. auto.
  - intros Ht. destruct (r !! "dashboard.id") eqn:Hi; [eauto |].
    destruct Hgood. exists r. auto.
Qed.

Lemma get_look_ids_returns_readable (content : list row) (ids : list value) :
  get_look_ids content = Ok ids -> Forall look_readable content.
Proof.
  intros Hok. apply Forall_forall. intros r Hin.
  assert (Hgood : ~ exists key, get_look_ids content = Raise (KeyError key)).
  { intros [key H]. congruence. }
  rewrite <- get_look_ids_raises in Hgood.
  split.
  - destruct (r !! "content_usage.content_type") eqn:Ht; [eauto |].
    destruct Hgood. exists r. auto.
  - intros Ht. destruct (r !! "look.id") eqn:Hi; [eauto |].
    destruct Hgood. exists r. auto.
Qed.

Lemma selected_dashboards (content : list row) (ids : list value) :
  get_dashboard_ids content = Ok ids -> ids = dashboardIds content.
Proof.
  intros Hok.
  pose proof (get_dashboard_ids_returns_readable _ _ Hok) as Hall.
  apply get_dashboard_ids_readable in Hall. congruence.
Qed.

Lemma selected_looks (content : list row) (ids : list value) :
  get_look_ids content = Ok ids -> ids = lookIds content.
Proof.
  intros Hok.
  pose proof (get_look_ids_returns_readable _ _ Hok) as Hall.
  apply get_look_ids_readable in Hall. congruence.
Qed.

(** C4. What [get_dashboard_ids] returns is exactly the [dashboard.id] cells
    of the rows whose content type is [dashboard] and whose dashboard id is
    not null: the rows are filtered in place, so their order is kept and a
    row that comes twice gives its id twice.  It returns on every list of
    rows it can read. *)
Theorem get_dashboard_ids_selects (content : list row) :
  (forall ids : list value,
     get_dashboard_ids content = Ok ids -> ids = dashboardIds content)
  /\ (Forall dashboard_readable content ->
      get_dashboard_ids content = Ok (dashboardIds content)).
Proof.
  split; [apply selected_dashboards | apply get_dashboard_ids_readable].
Qed.

Lemma get_dashboard_ids_selects_witness :
  Forall dashboard_readable sample_unused
  /\ get_dashboard_ids sample_unused = Ok [VStr "1"; VStr "1"; VStr "7"].
Proof.
  assert (H : Forall dashboard_readable sample_unused).
  { repeat constructor; vm_compute; eauto. }
  split; [exact H |].
  rewrite (proj2 (get_dashboard_ids_selects sample_unused) H). reflexivity.
Defined.

(** C5. What [get_look_ids] returns is the [look.id] cell of every row
    whose content type is [look], null or not, one cell per such row: a look
    row whose look id is null puts that null in the result.  It returns on
    every list of rows it can read. *)
Theorem get_look_ids_keeps_null (content : list row) :
  Forall look_readable content ->
  get_look_ids content = Ok (lookIds content)
  /\ (forall ids : list value,
        get_look_ids content = Ok ids -> ids = lookIds content)
  /\ length (lookIds content) = length (List.filter (has_type "look") content)
  /\ forall r : row,
       r ∈ content ->
       r !! "content_usage.content_type" = Some (VStr "look") ->
       r !! "look.id" = Some VNone ->
       VNone ∈ lookIds content.
Proof.
  intros Hall. split; [| split; [| split]].
  - apply get_look_ids_readable, Hall.
  - apply selected_looks.
  - induction Hall as [| r rest [[t Ht] Hid] _ IH]; [reflexivity |].
    unfold lookIds in *. cbn [List.filter].
    destruct (has_type "look" r) eqn:E; [| exact IH].
    apply has_type_spec in E. destruct (Hid E) as [i Hi].
    cbn [omap list_omap]. rewrite Hi. cbn [length]. f_equal. exact IH.
  - intros r Hin Ht Hi. unfold lookIds.
    apply list_elem_of_omap. exists r. split; [| exact Hi].
    apply list_elem_of_In, filter_In. split.
    + apply list_elem_of_In, Hin.
    + apply has_type_spec, Ht.
Qed.

Lemma get_look_ids_keeps_null_witness :
  Forall look_readable sample_unused
  /\ get_look_ids sample_unused = Ok [VInt 9; VNone]
  /\ VNone ∈ lookIds sample_unused.
Proof.
  assert (H : Forall look_readable sample_unused).
  { repeat constructor; vm_compute; eauto. }
  destruct (get_look_ids_keeps_null sample_unused H)
    as (Heq & _ & _ & Hnull).
  split; [exact H |]. split.
  - rewrite Heq. reflexivity.
  - apply (Hnull (look_row VNone)).
    + do 4 right. left.
    + reflexivity.
    + reflexivity.
Defined.

(** C10. A selector raises a [KeyError], and skips nothing, as soon as its
    input holds a row without the key [content_usage.content_type], or, for
    [get_dashboard_ids], a dashboard row without the key [dashboard.id], or,
    for [get_look_ids], a look row without the key [look.id]; on any other
    input it returns a list. *)
Theorem selectors_raise_KeyError (content : list row) :
  ((exists r : row,
      r ∈ content
      /\ (r !! "content_usage.content_type" = None
          \/ (r !! "content_usage.content_type" = Some (VStr "dashboard")
              /\ r !! "dashboard.id" = None)))
   -> exists key : string, get_dashboard_ids content = Raise (KeyError key))
  /\ ((exists r : row,
         r ∈ content
         /\ (r !! "content_usage.content_type" = None
             \/ (r !! "content_usage.content_type" = Some (VStr "look")
                 /\ r !! "look.id" = None)))
      -> exists key : string, get_look_ids content = Raise (KeyError key))
  /\ ((forall r : row, r ∈ content -> dashboard_readable r)
      -> exists ids : list value, get_dashboard_ids content = Ok ids)
  /\ ((forall r : row, r ∈ content -> look_readable r)
      -> exists ids : list value, get_look_ids content = Ok ids).
Proof.
  split; [apply get_dashboard_ids_raises |].
  split; [apply get_look_ids_raises |].
  split; intros Hall; eexists.
  - apply get_dashboard_ids_readable, Forall_forall, Hall.
  - apply get_look_ids_readable, Forall_forall, Hall.
Qed.

Lemma selectors_raise_KeyError_witness :
  (exists key : string,
     get_dashboard_ids [dashboard_row (VStr "1"); untyped_row]
     = Raise (KeyError key))
  /\ (exists key : string,
        get_dashboard_ids [dashboard_row_without_id] = Raise (KeyError key))
  /\ (exists key : string,
        get_look_ids [look_row (VInt 9); look_row_without_id]
        = Raise (KeyError key))
  /\ (exists ids : list value, get_dashboard_ids sample_unused = Ok ids)
  /\ (exists ids : list value, get_look_ids sample_unused = Ok ids).
Proof.
  split; [| split; [| split; [| split]]].
  - apply (proj1 (selectors_raise_KeyError _)).
    exists untyped_row. split; [right; left | left; reflexivity].
  - apply (proj1 (selectors_raise_KeyError _)).
    exists dashboard_row_without_id.
    split; [left | right; split; reflexivity].
  - apply (proj1 (proj2 (selectors_raise_KeyError _))).
    exists look_row_without_id.
    split; [right; left | right; split; reflexivity].
  - apply (proj1 (proj2 (proj2 (selectors_raise_KeyError sample_unused)))).
    intros r Hr. assert (H : Forall dashboard_readable sample_unused).
    { repeat constructor; vm_compute; eauto. }
    exact (proj1 (Forall_forall _ _) H r Hr).
  - apply (proj2 (proj2 (proj2 (selectors_raise_KeyError sample_unused)))).
    intros r Hr. assert (H : Forall look_readable sample_unused).
    { repeat constructor; vm_compute; eauto. }
    exact (proj1 (Forall_forall _ _) H r Hr).
Defined.

(** ** Running the mutators and the notifier *)

Lemma entered_app (h l : list event) : entered (h ++ l) = entered h ++ entered l.
Proof. apply flat_map_app. Qed.

Lemma payloads_app (h l : list event) :
  payloads (h ++ l) = payloads h ++ payloads l.
Proof. apply flat_map_app. Qed.

Lemma remote_calls_app (h l : list event) :
  remote_calls (h ++ l) = remote_calls h ++ remote_calls l.
Proof. apply List.filter_app. Qed.

Lemma string_app_assoc (a b c : string) : (a +:+ b) +:+ c = a +:+ b +:+ c.
Proof.
  induction a as [| x a IH]; [reflexivity |].
  change (String x ((a +:+ b) +:+ c) = String x (a +:+ b +:+ c)).
  rewrite IH. reflexivity.
Qed.

Lemma soft_delete_dashboard_run (env : Env) (i : value) (h : list event) :
  let body := {| dashboard_deleted := Some false |} in
  let h1 := h ++ [Entered SoftDeleteDashboard i] in
  let out := update_dashboard env h1 (py_str i) body in
  soft_delete_dashboard env i h =
  (Ok (outcome_text
         ("Successfully soft deleted dashboard: " +:+ py_str i)
         ("Error with soft deleting dashboard (" +:+ py_str i +:+ "): ")
         out),
   h1 ++ [UpdateDashboard (py_str i) body out]).
Proof.
  intros body h1 out.
  unfold soft_delete_dashboard, try_except, sdk_update_dashboard, perform,
    mark, mbind, M_bind, mret, M_ret.
  fold body. fold h1. fold out.
  destruct out as [d | e]; unfold outcome_text; [reflexivity |].
  rewrite !string_app_assoc. reflexivity.
Qed.

Lemma soft_delete_look_run (env : Env) (i : value) (h : list event) :
  let body := {| look_deleted := Some false |} in
  let h1 := h ++ [Entered SoftDeleteLook i] in
  let out := update_look env h1 (py_str i) body in
  soft_delete_look env i h =
  (Ok (outcome_text
         ("Successfully soft deleted Look: " +:+ py_str i)
         ("Error with soft deleting Look (" +:+ py_str i +:+ "): ")
         out),
   h1 ++ [UpdateLook (py_str i) body out]).
Proof.
  intros body h1 out.
  unfold soft_delete_look, try_except, sdk_update_look, perform,
    mark, mbind, M_bind, mret, M_ret.
  fold body. fold h1. fold out.
  destruct out as [d | e]; unfold outcome_text; [reflexivity |].
  rewrite !string_app_assoc. reflexivity.
Qed.

Lemma hard_delete_dashboard_run (i : value) (h : list event) :
  hard_delete_dashboard i h =
  (Ok ("Successfully permanently deleted dashboard: " +:+ py_str i),
   h ++ [Entered HardDeleteDashboard i]).
Proof. reflexivity. Qed.

Lemma hard_delete_look_run (i : value) (h : list event) :
  hard_delete_look i h =
  (Ok ("Successfully permanently deleted Look: " +:+ py_str i),
   h ++ [Entered HardDeleteLook i]).
Proof. reflexivity. Qed.

(** C1. Whatever the id, and whatever the instance answers,
    [soft_delete_dashboard] and [soft_delete_look] send one request, the
    update of the item of that id, and its body has [deleted] set to [False]:
    the archival is a dry run. *)
Theorem soft_delete_sends_deleted_false
    (env : Env) (i : value) (h : list event) :
  (exists out : result Dashboard,
     remote_calls (snd (soft_delete_dashboard env i h)) =
     remote_calls h
     ++ [UpdateDashboard (py_str i) {| dashboard_deleted := Some false |} out])
  /\ (exists out : result LookWithQuery,
        remote_calls (snd (soft_delete_look env i h)) =
        remote_calls h
        ++ [UpdateLook (py_str i) {| look_deleted := Some false |} out]).
Proof.
  split; eexists.
  - rewrite soft_delete_dashboard_run. cbn [snd].
    rewrite !remote_calls_app. cbn. rewrite app_nil_r. reflexivity.
  - rewrite soft_delete_look_run. cbn [snd].
    rewrite !remote_calls_app. cbn. rewrite app_nil_r. reflexivity.
Qed.

(** C2. Whatever the id, [hard_delete_dashboard] and [hard_delete_look] call
    nothing of the SDK, the irreversible deletion least of all, and return
    the text of a success. *)
Theorem hard_delete_calls_nothing (i : value) (h : list event) :
  (fst (hard_delete_dashboard i h) =
   Ok ("Successfully permanently deleted dashboard: " +:+ py_str i)
   /\ remote_calls (snd (hard_delete_dashboard i h)) = remote_calls h)
  /\ (fst (hard_delete_look i h) =
      Ok ("Successfully permanently deleted Look: " +:+ py_str i)
      /\ remote_calls (snd (hard_delete_look i h)) = remote_calls h).
Proof.
  rewrite hard_delete_dashboard_run, hard_delete_look_run. cbn [fst snd].
  rewrite !remote_calls_app. cbn. rewrite app_nil_r. auto.
Qed.

(** Every mutator returns a text and leaves its mark, and no payload. *)
Lemma run_mutator_returns
    (env : Env) (op : mutator) (i : value) (h : list event) :
  exists (text : string) (h' : list event),
    run_mutator env op i h = (Ok text, h')
    /\ (text = success_text op i \/ exists e : exn, text = error_text op i e)
    /\ entered h' = entered h ++ [(op, i)]
    /\ payloads h' = payloads h.
Proof.
  destruct op; cbn [run_mutator].
  - rewrite soft_delete_dashboard_run. do 2 eexists. split; [reflexivity |].
    split; [| split].
    + destruct (update_dashboard _ _ _ _) as [d | e];
        [left; reflexivity | right; exists e].
      cbn [outcome_text error_text]. rewrite !string_app_assoc. reflexivity.
    + rewrite !entered_app. cbn. rewrite app_nil_r. reflexivity.
    + rewrite !payloads_app. cbn. rewrite !app_nil_r. reflexivity.
  - rewrite soft_delete_look_run. do 2 eexists. split; [reflexivity |].
    split; [| split].
    + destruct (update_look _ _ _ _) as [d | e];
        [left; reflexivity | right; exists e].
      cbn [outcome_text error_text]. rewrite !string_app_assoc. reflexivity.
    + rewrite !entered_app. cbn. rewrite app_nil_r. reflexivity.
    + rewrite !payloads_app. cbn. rewrite !app_nil_r. reflexivity.
  - rewrite hard_delete_dashboard_run. do 2 eexists. split; [reflexivity |].
    split; [left; reflexivity | split].
    + rewrite entered_app. reflexivity.
    + rewrite payloads_app. cbn. rewrite app_nil_r. reflexivity.
  - rewrite hard_delete_look_run. do 2 eexists. split; [reflexivity |].
    split; [left; reflexivity | split].
    + rewrite entered_app. reflexivity.
    + rewrite payloads_app. cbn. rewrite app_nil_r. reflexivity.
Qed.

(** A loop over a mutator goes through all its ids. *)
Lemma for_run_mutator
    (env : Env) (op : mutator) (ids : list value) (h : list event) :
  exists h' : list event,
    for_ ids (run_mutator env op) h = (Ok tt, h')
    /\ entered h' = entered h ++ map (pair op) ids
    /\ payloads h' = payloads h.
Proof.
  revert h. induction ids as [| i rest IH]; intros h.
  - exists h. rewrite app_nil_r. auto.
  - destruct (run_mutator_returns env op i h) as (text & h1 & Hrun & _ & He & Hp).
    destruct (IH h1) as (h' & Hfor & He' & Hp').
    exists h'. split; [| split].
    + cbn [for_]. unfold mbind, M_bind. rewrite Hrun. exact Hfor.
    + rewrite He', He, <- app_assoc. reflexivity.
    + congruence.
Qed.

(** The loop goes on after a request that failed: dashboard [1] is refused,
    dashboard [7] is updated all the same. *)
Example batch_goes_on_after_failure :
  for_ [VStr "1"; VStr "7"] (soft_delete_dashboard sample_env) [] =
  (Ok tt,
   [Entered SoftDeleteDashboard (VStr "1");
    UpdateDashboard "1" {| dashboard_deleted := Some false |}
      (Raise (Exception "404 Not Found"));
    Entered SoftDeleteDashboard (VStr "7");
    UpdateDashboard "7" {| dashboard_deleted := Some false |}
      (Ok {| dashboard_title := "7" |})]).
Proof. reflexivity. Qed.

(** C3. Whatever the id and whatever the instance answers, each of the four
    mutators returns a text, that of a success or that of an error with its
    cause, and raises nothing; so a loop over a mutator enters it for every
    id of its list, in order, whichever of the remote calls fail. *)
Theorem mutators_never_raise
    (env : Env) (op : mutator) (i : value) (h : list event) :
  (exists text : string,
     fst (run_mutator env op i h) = Ok text
     /\ (text = success_text op i
         \/ exists e : exn, text = error_text op i e))
  /\ forall ids : list value,
       fst (for_ ids (run_mutator env op) h) = Ok tt
       /\ entered (snd (for_ ids (run_mutator env op) h)) =
          entered h ++ map (pair op) ids.
Proof.
  split.
  - destruct (run_mutator_returns env op i h) as (text & h' & Hrun & Ht & _).
    exists text. rewrite Hrun. auto.
  - intros ids.
    destruct (for_run_mutator env op ids h) as (h' & Hfor & He & _).
    rewrite Hfor. auto.
Qed.

(** ** The queries *)

Lemma get_unused_content_query_id_run (env : Env) (days : Z) (h : list event) :
  let out := create_query env h (unused_content_query days) in
  get_unused_content_query_id env days h =
  (match out with Ok q => Ok (id q) | Raise e => Raise e end,
   h ++ [CreateQuery (unused_content_query days) out]).
Proof.
  intros out.
  unfold get_unused_content_query_id, sdk_create_query, perform, mbind, M_bind.
  fold out. destruct out; reflexivity.
Qed.

Lemma get_deleted_content_query_id_run
    (env : Env) (days : Z) (h : list event) :
  let out := create_query env h (deleted_query days) in
  get_deleted_content_query_id env days h =
  (match out with Ok q => Ok (id q) | Raise e => Raise e end,
   h ++ [CreateQuery (deleted_query days) out]).
Proof.
  intros out.
  unfold get_deleted_content_query_id, sdk_create_query, perform, mbind,
    M_bind.
  fold out. destruct out; reflexivity.
Qed.

(** Printing an integer and reading it back. *)
Lemma int_of_string_str_int (n : Z) :
  NilZero.int_of_string (str_int n) = Some (Z.to_int n).
Proof.
  unfold str_int. apply NilZero.isi.
  - destruct n; cbn; [discriminate | | discriminate].
    intros [= H]. exact (DecimalPos.Unsigned.to_uint_nonnil _ H).
  - destruct n; cbn; [discriminate | discriminate |].
    intros [= H]. exact (DecimalPos.Unsigned.to_uint_nonnil _ H).
Qed.

Lemma number_filter_admits_greater (n x : Z) :
  number_filter_admits (">" +:+ str_int n) x = Some (n <? x).
Proof.
  change (">" +:+ str_int n) with (String ">" (str_int n)).
  cbn [number_filter_admits].
  rewrite int_of_string_str_int, DecimalZ.of_to. reflexivity.
Qed.

(** C6. For every threshold [d], the query that
    [get_unused_content_query_id] has the instance create filters
    [content_usage.days_since_last_accessed] with the text [>d]; read as the
    query engine reads it, that filter rejects a row at [d] days and lets
    one at [d + 1] days through. *)
Theorem unused_content_filter_is_strict
    (env : Env) (d : Z) (h : list event) :
  (exists out : result Query,
     snd (get_unused_content_query_id env d h) =
     h ++ [CreateQuery (unused_content_query d) out])
  /\ filters (unused_content_query d)
       !! "content_usage.days_since_last_accessed"
     = Some (">" +:+ str_int d)
  /\ number_filter_admits (">" +:+ str_int d) d = Some false
  /\ number_filter_admits (">" +:+ str_int d) (d + 1) = Some true.
Proof.
  split; [| split; [| split]].
  - eexists. rewrite get_unused_content_query_id_run. reflexivity.
  - reflexivity.
  - rewrite number_filter_admits_greater. f_equal. lia.
  - rewrite number_filter_admits_greater. f_equal. lia.
Qed.

(** ** The notifier *)

Lemma send_content_notification_run
    (env : Env) (query_id delete_type address : string) (h : list event) :
  let date := today env h in
  let body := unused_content_notification query_id delete_type address date in
  let out := scheduled_plan_run_once env (h ++ [Today date]) body in
  send_content_notification env query_id delete_type address h =
  (Ok match out with
      | Ok plan => inl plan
      | Raise e =>
          inr ("Error sending " +:+ delete_type
               +:+ " delete email notification (" +:+ date +:+ "): "
               +:+ str_exn e)
      end,
   (h ++ [Today date]) ++ [ScheduledPlanRunOnce body out]).
Proof.
  intros date body out.
  unfold send_content_notification, datetime_today, try_except,
    sdk_scheduled_plan_run_once, perform, mbind, M_bind, mret, M_ret.
  fold date. cbv zeta. fold body. fold out. destruct out; reflexivity.
Qed.

Lemma occurs_in_prefix (needle rest : string) :
  occurs_in needle (needle +:+ rest).
Proof. exists EmptyString, rest. reflexivity. Qed.

(** C7. Whatever the instance answers to the scheduling request,
    [send_content_notification] raises nothing; when the request raises, the
    function returns a text that holds
    [Error sending <kind> delete email notification], the date and the
    cause. *)
Theorem notification_failure_is_returned
    (env : Env) (query_id kind address : string) (h : list event) :
  let run := send_content_notification env query_id kind address h in
  let date := today env h in
  let body := unused_content_notification query_id kind address date in
  exists out : result ScheduledPlan,
    out = scheduled_plan_run_once env (h ++ [Today date]) body
    /\ snd run = h ++ [Today date; ScheduledPlanRunOnce body out]
    /\ (forall plan : ScheduledPlan, out = Ok plan -> fst run = Ok (inl plan))
    /\ (forall e : exn,
          out = Raise e ->
          fst run =
          Ok (inr ("Error sending " +:+ kind
                   +:+ " delete email notification (" +:+ date +:+ "): "
                   +:+ str_exn e))
          /\ exists text : string,
               fst run = Ok (inr text)
               /\ occurs_in
                    ("Error sending " +:+ kind
                     +:+ " delete email notification") text).
Proof.
  intros run date body. subst run.
  exists (scheduled_plan_run_once env (h ++ [Today date]) body).
  rewrite send_content_notification_run. fold date. fold body.
  cbn [fst snd].
  split; [reflexivity |]. split; [rewrite <- app_assoc; reflexivity |].
  split.
  - intros plan ->. reflexivity.
  - intros e ->. split; [reflexivity |]. eexists. split; [reflexivity |].
    replace ("Error sending " +:+ kind +:+ " delete email notification ("
             +:+ date +:+ "): " +:+ str_exn e)
      with (("Error sending " +:+ kind +:+ " delete email notification")
            +:+ " (" +:+ date +:+ "): " +:+ str_exn e).
    + apply occurs_in_prefix.
    + rewrite !string_app_assoc. reflexivity.
Qed.

Lemma notification_failure_is_returned_witness :
  fst (send_content_notification sample_env "unused" "soft"
         NOTIFICATION_EMAIL_ADDRESS [])
  = Ok (inr "Error sending soft delete email notification (2023-03-01): scheduler unavailable").
Proof.
  destruct (notification_failure_is_returned sample_env "unused" "soft"
              NOTIFICATION_EMAIL_ADDRESS [])
    as (out & Hout & _ & _ & Hraise).
  destruct (Hraise (Exception "scheduler unavailable")) as [Hrun _].
  - rewrite Hout. reflexivity.
  - exact Hrun.
Defined.

(** ** The entry point *)

Lemma query_id_keeps (env : Env) (h : list event) (body : WriteQuery)
    (out : result Query) :
  entered (h ++ [CreateQuery body out]) = entered h
  /\ payloads (h ++ [CreateQuery body out]) = payloads h.
Proof.
  rewrite entered_app, payloads_app. cbn. rewrite !app_nil_r. auto.
Qed.

(** Running a query leaves no mark; it adds its payload, when it gets one,
    and returns what the decoder makes of it. *)
Lemma run_and_decode (env : Env) (query_id : string) (h : list event) :
  get_deleted_content env query_id h = get_unused_content env query_id h
  /\ exists (r : result (list row)) (h' : list event),
       get_unused_content env query_id h = (r, h')
       /\ entered h' = entered h
       /\ ((exists payload : string,
              payloads h' = payloads h ++ [payload]
              /\ r = json_loads env payload)
           \/ (payloads h' = payloads h /\ exists e : exn, r = Raise e)).
Proof.
  split; [reflexivity |].
  set (out := run_query env h query_id "json" true).
  exists (match out with Ok payload => json_loads env payload
                    | Raise e => Raise e end),
    (h ++ [RunQuery query_id "json" true out]).
  split; [| split].
  - unfold get_unused_content, sdk_run_query, perform, lift, mbind, M_bind.
    fold out. destruct out as [payload | e]; [| reflexivity].
    destruct (json_loads env payload); reflexivity.
  - rewrite entered_app. cbn. rewrite app_nil_r. reflexivity.
  - rewrite payloads_app. destruct out as [payload | e]; cbn.
    + left. eauto.
    + right. rewrite app_nil_r. eauto.
Qed.

Lemma notification_keeps
    (env : Env) (query_id delete_type address : string) (h : list event) :
  exists (o : ScheduledPlan + string) (h' : list event),
    send_content_notification env query_id delete_type address h = (Ok o, h')
    /\ entered h' = entered h
    /\ payloads h' = payloads h.
Proof.
  rewrite send_content_notification_run. do 2 eexists.
  split; [reflexivity |].
  rewrite !entered_app, !payloads_app. cbn. rewrite !app_nil_r. auto.
Qed.

Lemma not_selectable_decode (env : Env) (payload : string) (e : exn) :
  json_loads env payload = Raise e -> ~ selectable env payload.
Proof. intros H (rows & d & l & Hrows & _). congruence. Qed.

Lemma not_selectable_dashboards
    (env : Env) (payload : string) (rows : list row) (e : exn) :
  json_loads env payload = Ok rows ->
  get_dashboard_ids rows = Raise e ->
  ~ selectable env payload.
Proof. intros H1 H2 (rows' & d & l & Hrows & Hd & _). congruence. Qed.

Lemma not_selectable_looks
    (env : Env) (payload : string) (rows : list row) (e : exn) :
  json_loads env payload = Ok rows ->
  get_look_ids rows = Raise e ->
  ~ selectable env payload.
Proof. intros H1 H2 (rows' & d & l & Hrows & _ & Hl). congruence. Qed.

Lemma pass_order_selected (env : Env) (on_dashboard on_look : mutator)
    (payload : string) (rows : list row) (d l : list value) :
  json_loads env payload = Ok rows ->
  get_dashboard_ids rows = Ok d ->
  get_look_ids rows = Ok l ->
  pass_order env on_dashboard on_look payload
  = map (pair on_dashboard) d ++ map (pair on_look) l.
Proof.
  intros H1 H2 H3. unfold pass_order, mbind, result_bind.
  rewrite H1, H2, H3. reflexivity.
Qed.

Lemma pass_order_not_selectable (env : Env) (on_dashboard on_look : mutator)
    (payload : string) :
  ~ selectable env payload ->
  pass_order env on_dashboard on_look payload = [].
Proof.
  intros H. unfold pass_order, mbind, result_bind.
  destruct (json_loads env payload) as [rows |] eqn:H1; [| reflexivity].
  destruct (get_dashboard_ids rows) as [d |] eqn:H2; [| reflexivity].
  destruct (get_look_ids rows) as [l |] eqn:H3; [| reflexivity].
  destruct H. exists rows, d, l. auto.
Qed.

(** One pass, from the running of its query to its notification: either the
    selection raises and no mutator is entered, or the pass enters the
    mutators in the order of [pass_order] and goes on. *)
Lemma pass_run (env : Env) (A : Type)
    (on_dashboard on_look : mutator) (query_id delete_type : string)
    (next : M A) (h : list event) :
  let run := pass env on_dashboard on_look query_id delete_type next in
  (exists (e : exn) (h' : list event),
     run h = (Raise e, h')
     /\ entered h' = entered h
     /\ (payloads h' = payloads h
         \/ exists payload : string,
              payloads h' = payloads h ++ [payload]
              /\ ~ selectable env payload))
  \/ (exists (payload : string) (h' : list event),
        run h = next h'
        /\ selectable env payload
        /\ payloads h' = payloads h ++ [payload]
        /\ entered h' =
           entered h ++ pass_order env on_dashboard on_look payload).
Proof.
  intros run.
  destruct (run_and_decode env query_id h) as (_ & r & h1 & Hrun & He1 & Hp1).
  destruct Hp1 as [(payload & Hp1 & ->) | (Hp1 & e & ->)].
  2: { left. exists e, h1. split; [| auto].
       unfold run, pass, mbind, M_bind. rewrite Hrun. reflexivity. }
  destruct (json_loads env payload) as [rows | e] eqn:Hrows.
  2: { left. exists e, h1. split; [| split; [exact He1 |]].
       - unfold run, pass, mbind, M_bind. rewrite Hrun. reflexivity.
       - right. exists payload. eauto using not_selectable_decode. }
  destruct (get_dashboard_ids rows) as [d | e] eqn:Hd.
  2: { left. exists e, h1. split; [| split; [exact He1 |]].
       - unfold run, pass, mbind, M_bind, lift. rewrite Hrun, Hd. reflexivity.
       - right. exists payload. eauto using not_selectable_dashboards. }
  destruct (get_look_ids rows) as [l | e] eqn:Hl.
  2: { left. exists e, h1. split; [| split; [exact He1 |]].
       - unfold run, pass, mbind, M_bind, lift. rewrite Hrun, Hd, Hl. reflexivity.
       - right. exists payload. eauto using not_selectable_looks. }
  destruct (for_run_mutator env on_dashboard d h1) as (h2 & Hfor2 & He2 & Hp2).
  destruct (for_run_mutator env on_look l h2) as (h3 & Hfor3 & He3 & Hp3).
  destruct (notification_keeps env query_id delete_type
              NOTIFICATION_EMAIL_ADDRESS h3) as (o & h4 & Hsend & He4 & Hp4).
  right. exists payload, h4. split; [| split; [| split]].
  - unfold run, pass, mbind, M_bind, lift.
    rewrite Hrun, Hd, Hl, Hfor2, Hfor3, Hsend. reflexivity.
  - exists rows, d, l. auto.
  - congruence.
  - rewrite (pass_order_selected _ _ _ _ _ _ _ Hrows Hd Hl).
    rewrite He4, He3, He2, He1, app_assoc. reflexivity.
Qed.

(** [main] is its two passes, one after the other. *)
Lemma main_passes (env : Env) (R : Type) (request : R) :
  main env request =
  (unused_content_query_id ←
     get_unused_content_query_id env DAYS_BEFORE_SOFT_DELETE;
   pass env SoftDeleteDashboard SoftDeleteLook unused_content_query_id "soft"
     (deleted_content_query_id ←
        get_deleted_content_query_id env DAYS_BEFORE_HARD_DELETE;
      pass env HardDeleteDashboard HardDeleteLook deleted_content_query_id
        "hard" (mret main_status))).
Proof. reflexivity. Qed.

(** Every run of [main]: what it was answered, what it entered, and how it
    ended. *)
Lemma main_run (env : Env) (R : Type) (request : R) (h : list event) :
  exists (r : result string) (h' : list event) (answered : list string),
    main env request h = (r, h')
    /\ payloads h' = payloads h ++ answered
    /\ entered h' = entered h ++ run_order env answered
    /\ ((r = Ok main_status /\ both_passes_complete env answered)
        \/ (exists e : exn,
              r = Raise e /\ ~ both_passes_complete env answered)).
Proof.
  rewrite main_passes. unfold mbind at 1, M_bind at 1.
  rewrite get_unused_content_query_id_run.
  destruct (query_id_keeps env h (unused_content_query DAYS_BEFORE_SOFT_DELETE)
              (create_query env h (unused_content_query DAYS_BEFORE_SOFT_DELETE)))
    as [He0 Hp0].
  set (h0 := h ++ [CreateQuery _ _]) in *.
  destruct (create_query env h _) as [q1 | e].
  2: { exists (Raise e), h0, []. rewrite !app_nil_r.
       split; [reflexivity |]. split; [exact Hp0 |]. split; [exact He0 |].
       right. exists e. split; [reflexivity |].
       intros (p1 & p2 & H & _). discriminate. }
  match goal with
  | |- context [pass env ?d ?l ?q ?k ?next h0] =>
      destruct (pass_run env _ d l q k next h0)
        as [(e & h1 & Hrun & He1 & Hp1)
           | (p1 & h1 & Hrun & Hs1 & Hp1 & He1)];
      cbv zeta in Hrun; rewrite Hrun
  end.
  { exists (Raise e), h1.
    destruct Hp1 as [Hp1 | (p1 & Hp1 & Hn1)].
    - exists []. rewrite !app_nil_r.
      split; [reflexivity |]. split; [congruence |]. split; [congruence |].
      right. exists e. split; [reflexivity |].
      intros (u & t & H & _). discriminate.
    - exists [p1]. split; [reflexivity |]. split; [congruence |].
      split.
      + cbn [run_order]. rewrite (pass_order_not_selectable _ _ _ _ Hn1).
        rewrite !app_nil_r. congruence.
      + right. exists e. split; [reflexivity |].
        intros (u & t & H & _). discriminate. }
  unfold mbind at 1, M_bind at 1.
  rewrite get_deleted_content_query_id_run.
  destruct (query_id_keeps env h1 (deleted_query DAYS_BEFORE_HARD_DELETE)
              (create_query env h1 (deleted_query DAYS_BEFORE_HARD_DELETE)))
    as [He2 Hp2].
  set (h2 := h1 ++ [CreateQuery _ _]) in *.
  destruct (create_query env h1 _) as [q2 | e].
  2: { exists (Raise e), h2, [p1].
       split; [reflexivity |]. split; [congruence |]. split.
       - cbn [run_order]. rewrite app_nil_r. congruence.
       - right. exists e. split; [reflexivity |].
         intros (u & t & H & _). discriminate. }
  match goal with
  | |- context [pass env ?d ?l ?q ?k ?next h2] =>
      destruct (pass_run env _ d l q k next h2)
        as [(e & h3 & Hrun2 & He3 & Hp3)
           | (p2 & h3 & Hrun2 & Hs2 & Hp3 & He3)];
      cbv zeta in Hrun2; rewrite Hrun2
  end.
  { exists (Raise e), h3.
    destruct Hp3 as [Hp3 | (p2 & Hp3 & Hn2)].
    - exists [p1]. split; [reflexivity |]. split; [congruence |]. split.
      + cbn [run_order]. rewrite app_nil_r. congruence.
      + right. exists e. split; [reflexivity |].
        intros (u & t & H & _). discriminate.
    - exists [p1; p2]. split; [reflexivity |]. split.
      + rewrite Hp3, Hp2, Hp1, Hp0, <- app_assoc. reflexivity.
      + split.
        * cbn [run_order]. rewrite (pass_order_not_selectable _ _ _ _ Hn2).
          rewrite app_nil_r. congruence.
        * right. exists e. split; [reflexivity |].
          intros (u & t & [= <- <-] & _ & Hs). exact (Hn2 Hs). }
  exists (Ok main_status), h3, [p1; p2]. split; [reflexivity |]. split.
  - rewrite Hp3, Hp2, Hp1, Hp0, <- app_assoc. reflexivity.
  - split.
    + cbn [run_order]. rewrite He3, He2, He1, He0, <- app_assoc. reflexivity.
    + left. split; [reflexivity |]. exists p1, p2. auto.
Qed.

(** C8. In every run of [main], the mutators are entered pass by pass, and
    within a pass the one for dashboards on every selected dashboard id
    before the one for looks on any look id, each in the order the selector
    gives, which is that of the rows of the query result; both queries ask
    for their rows sorted by [content_usage.last_accessed_date].  A run that
    returns has gone through both passes in this way. *)
Theorem main_mutates_dashboards_before_looks
    (env : Env) (R : Type) (request : R) (h : list event) :
  (exists answered : list string,
     payloads (snd (main env request h)) = payloads h ++ answered
     /\ entered (snd (main env request h)) =
        entered h ++ run_order env answered)
  /\ (forall (v : string) (h' : list event),
        main env request h = (Ok v, h') ->
        exists (unused trashed : string) (unused_content deleted_content : list row)
               (unused_dashboard_ids unused_look_ids : list value)
               (deleted_dashboard_ids deleted_look_ids : list value),
          payloads h' = payloads h ++ [unused; trashed]
          /\ json_loads env unused = Ok unused_content
          /\ get_dashboard_ids unused_content = Ok unused_dashboard_ids
          /\ get_look_ids unused_content = Ok unused_look_ids
          /\ json_loads env trashed = Ok deleted_content
          /\ get_dashboard_ids deleted_content = Ok deleted_dashboard_ids
          /\ get_look_ids deleted_content = Ok deleted_look_ids
          /\ unused_dashboard_ids = dashboardIds unused_content
          /\ unused_look_ids = lookIds unused_content
          /\ deleted_dashboard_ids = dashboardIds deleted_content
          /\ deleted_look_ids = lookIds deleted_content
          /\ entered h' =
             entered h
             ++ map (pair SoftDeleteDashboard) unused_dashboard_ids
             ++ map (pair SoftDeleteLook) unused_look_ids
             ++ map (pair HardDeleteDashboard) deleted_dashboard_ids
             ++ map (pair HardDeleteLook) deleted_look_ids)
  /\ sorts (unused_content_query DAYS_BEFORE_SOFT_DELETE)
     = ["content_usage.last_accessed_date"]
  /\ sorts (deleted_query DAYS_BEFORE_HARD_DELETE)
     = ["content_usage.last_accessed_date"].
Proof.
  destruct (main_run env R request h)
    as (r & h1 & answered & Hrun & Hp & He & Hend).
  split; [| split; [| split; reflexivity]].
  - exists answered. rewrite Hrun. auto.
  - intros v h' Hok. rewrite Hrun in Hok. injection Hok as -> ->.
    destruct Hend as [[_ Hboth] | (e & [=] & _)].
    destruct Hboth as (unused & trashed & -> & Hs1 & Hs2).
    destruct Hs1 as (rows1 & d1 & l1 & Hr1 & Hd1 & Hl1).
    destruct Hs2 as (rows2 & d2 & l2 & Hr2 & Hd2 & Hl2).
    exists unused, trashed, rows1, rows2, d1, l1, d2, l2.
    repeat (split; [assumption |]).
    split; [apply (selected_dashboards _ _ Hd1) |].
    split; [apply (selected_looks _ _ Hl1) |].
    split; [apply (selected_dashboards _ _ Hd2) |].
    split; [apply (selected_looks _ _ Hl2) |].
    rewrite He. cbn [run_order].
    rewrite (pass_order_selected _ _ _ _ _ _ _ Hr1 Hd1 Hl1).
    rewrite (pass_order_selected _ _ _ _ _ _ _ Hr2 Hd2 Hl2).
    rewrite <- !app_assoc. reflexivity.
Qed.

Lemma main_mutates_dashboards_before_looks_witness :
  exists h' : list event,
    main sample_env tt [] = (Ok main_status, h')
    /\ entered h' =
       [(SoftDeleteDashboard, VStr "1"); (SoftDeleteDashboard, VStr "1");
        (SoftDeleteDashboard, VStr "7");
        (SoftDeleteLook, VInt 9); (SoftDeleteLook, VNone);
        (HardDeleteDashboard, VStr "12"); (HardDeleteLook, VInt 4)].
Proof.
  exists (snd (main sample_env tt [])).
  assert (Hrun : main sample_env tt [] =
                 (Ok main_status, snd (main sample_env tt []))).
  { vm_compute. reflexivity. }
  split; [exact Hrun |].
  destruct (proj1 (proj2 (main_mutates_dashboards_before_looks
                            sample_env unit tt [])) _ _ Hrun)
    as (unused & trashed & rows1 & rows2 & d1 & l1 & d2 & l2
        & Hp & Hr1 & Hd1 & Hl1 & Hr2 & Hd2 & Hl2 & _ & _ & _ & _ & He).
  rewrite He.
  vm_compute in Hp. injection Hp as <- <-.
  change (Ok sample_unused = Ok rows1) in Hr1. injection Hr1 as <-.
  change (Ok sample_trashed = Ok rows2) in Hr2. injection Hr2 as <-.
  vm_compute in Hd1. injection Hd1 as <-.
  vm_compute in Hl1. injection Hl1 as <-.
  vm_compute in Hd2. injection Hd2 as <-.
  vm_compute in Hl2. injection Hl2 as <-.
  reflexivity.
Defined.

(** C9. A run of [main] that returns returns the one fixed text, and a run
    that was answered both payloads and went through both selections does
    return, whatever the update and scheduling requests answered: the texts
    of the mutators and of the notifier are not part of it. *)
Theorem main_returns_fixed_status
    (env : Env) (R : Type) (request : R) (h : list event) :
  (forall v : string,
     fst (main env request h) = Ok v ->
     v = "Successfully ran soft delete and hard delete content automation.")
  /\ (forall answered : list string,
        payloads (snd (main env request h)) = payloads h ++ answered ->
        both_passes_complete env answered ->
        fst (main env request h) =
        Ok "Successfully ran soft delete and hard delete content automation.").
Proof.
  destruct (main_run env R request h)
    as (r & h1 & answered & Hrun & Hp & He & Hend).
  rewrite Hrun. cbn [fst snd]. split.
  - intros v ->. destruct Hend as [[[= ->] _] | (e & [=] & _)]. reflexivity.
  - intros answered' Hp' Hboth. rewrite Hp in Hp'.
    apply app_inv_head in Hp'. subst answered'.
    destruct Hend as [[-> _] | (e & _ & Hnot)]; [reflexivity |].
    destruct (Hnot Hboth).
Qed.

Lemma main_returns_fixed_status_witness :
  fst (main sample_env tt []) = Ok main_status.
Proof.
  apply (proj2 (main_returns_fixed_status sample_env unit tt [])
           ["unused"; "trashed"]).
  - vm_compute. reflexivity.
  - exists "unused", "trashed". split; [reflexivity |].
    split; do 3 eexists; repeat split; vm_compute; reflexivity.
Defined.

(** * Further properties of the selectors *)

Lemma comprehension_app {A B : Type} (elt : A -> result B)
    (cond : A -> result bool) (l1 l2 : list A) :
  comprehension elt cond (l1 ++ l2) =
  (xs ← comprehension elt cond l1;
   ys ← comprehension elt cond l2;
   Ok (xs ++ ys)).
Proof.
  induction l1 as [| x l1 IH]; cbn [app comprehension].
  - unfold mbind, result_bind.
    destruct (comprehension elt cond l2); reflexivity.
  - unfold mbind, result_bind in *.
    destruct (cond x) as [[|] | e]; [| exact IH | reflexivity].
    destruct (elt x) as [y | e]; [| reflexivity].
    rewrite IH. destruct (comprehension elt cond l1) as [xs | e];
      [| reflexivity].
    destruct (comprehension elt cond l2); reflexivity.
Qed.

(** X1. No id that [get_dashboard_ids] returns is null. *)
Theorem get_dashboard_ids_never_null (content : list row) (ids : list value) :
  get_dashboard_ids content = Ok ids -> VNone ∉ ids.
Proof.
  intros Hok Hin. rewrite (selected_dashboards _ _ Hok) in Hin.
  unfold dashboardIds in Hin.
  apply list_elem_of_omap in Hin as (r & Hr & Hid).
  apply list_elem_of_In, filter_In in Hr as [_ Hkeep].
  apply andb_prop in Hkeep as [_ Hnn].
  unfold non_null in Hnn. rewrite Hid in Hnn. discriminate.
Qed.

Lemma get_dashboard_ids_never_null_witness :
  get_dashboard_ids sample_unused = Ok [VStr "1"; VStr "1"; VStr "7"]
  /\ VNone ∉ [VStr "1"; VStr "1"; VStr "7"].
Proof.
  assert (H : get_dashboard_ids sample_unused
              = Ok [VStr "1"; VStr "1"; VStr "7"]).
  { vm_compute. reflexivity. }
  split; [exact H |].
  exact (get_dashboard_ids_never_null sample_unused _ H).
Defined.

(** X2. Each selector goes through a list made of two parts as through the
    first part and then the second: it returns the two results one after the
    other, and raises what the first part raises, or else what the second
    raises. *)
Theorem selectors_app (content1 content2 : list row) :
  get_dashboard_ids (content1 ++ content2) =
  (ids1 ← get_dashboard_ids content1;
   ids2 ← get_dashboard_ids content2;
   Ok (ids1 ++ ids2))
  /\ get_look_ids (content1 ++ content2) =
     (ids1 ← get_look_ids content1;
      ids2 ← get_look_ids content2;
      Ok (ids1 ++ ids2)).
Proof. split; apply comprehension_app. Qed.

Lemma concerns_dashboard_cons (r : row) (rest : list row) :
  concerns "dashboard" r = false ->
  get_dashboard_ids (r :: rest) = get_dashboard_ids rest.
Proof.
  unfold concerns. intros H. rewrite get_dashboard_ids_cons.
  destruct (r !! "content_usage.content_type") as [t |]; [| discriminate].
  rewrite H. reflexivity.
Qed.

Lemma concerns_look_cons (r : row) (rest : list row) :
  concerns "look" r = false ->
  get_look_ids (r :: rest) = get_look_ids rest.
Proof.
  unfold concerns. intros H. rewrite get_look_ids_cons.
  destruct (r !! "content_usage.content_type") as [t |]; [| discriminate].
  rewrite H. reflexivity.
Qed.

(** X3. A row whose content type is there and is not the string the selector
    compares it with (another string, a number, a null) does not count for
    that selector: with or without such rows the selector returns the same
    list or raises the same exception, and it never reads their id. *)
Theorem selectors_skip_other_types (content : list row) :
  get_dashboard_ids (List.filter (concerns "dashboard") content)
  = get_dashboard_ids content
  /\ get_look_ids (List.filter (concerns "look") content)
     = get_look_ids content.
Proof.
  split; induction content as [| r rest IH]; try reflexivity;
    cbn [List.filter].
  - destruct (concerns "dashboard" r) eqn:E.
    + rewrite !get_dashboard_ids_cons, IH. reflexivity.
    + rewrite (concerns_dashboard_cons _ _ E). exact IH.
  - destruct (concerns "look" r) eqn:E.
    + rewrite !get_look_ids_cons, IH. reflexivity.
    + rewrite (concerns_look_cons _ _ E). exact IH.
Qed.

(** X4. A row gives at most one id: the dashboard ids and the look ids
    selected from a list of rows are together no more than the rows. *)
Theorem selectors_at_most_one_id_per_row
    (content : list row) (dashboard_ids look_ids : list value) :
  get_dashboard_ids content = Ok dashboard_ids ->
  get_look_ids content = Ok look_ids ->
  (length dashboard_ids + length look_ids <= length content)%nat.
Proof.
  revert dashboard_ids look_ids.
  induction content as [| r rest IH]; intros d l.
  - intros [= <-] [= <-]. reflexivity.
  - rewrite get_dashboard_ids_cons, get_look_ids_cons.
    destruct (r !! "content_usage.content_type") as [t |]; [| discriminate].
    destruct (eq_str t "dashboard") eqn:Ed, (eq_str t "look") eqn:El.
    + apply eq_str_true in Ed. apply eq_str_true in El. congruence.
    + destruct (r !! "dashboard.id") as [i |]; [| discriminate].
      intros Hd Hl.
      destruct (get_dashboard_ids rest) as [d' |] eqn:Hd'.
      * specialize (IH d' l eq_refl Hl).
        destruct (is_not_None i); injection Hd as <-; cbn [length]; lia.
      * destruct (is_not_None i); discriminate.
    + destruct (r !! "look.id") as [i |]; [| discriminate].
      intros Hd Hl.
      destruct (get_look_ids rest) as [l' |] eqn:Hl'; [| discriminate].
      injection Hl as <-. specialize (IH d l' Hd eq_refl).
      cbn [length]. lia.
    + intros Hd Hl. specialize (IH d l Hd Hl). cbn [length]. lia.
Qed.

Lemma selectors_at_most_one_id_per_row_witness :
  (length [VStr "1"; VStr "1"; VStr "7"] + length [VInt 9; VNone]
   <= length sample_unused)%nat.
Proof.
  apply (selectors_at_most_one_id_per_row sample_unused);
    vm_compute; reflexivity.
Defined.

(** * Further properties of the queries and of the entry point *)

(** X5. For every threshold [d], the query that
    [get_deleted_content_query_id] has the instance create filters the
    computed dimension [days_since_moved_to_trash] with the text [>d], and
    the content type with [dashboard,look], and with nothing else; read as
    the query engine reads it, the first filter rejects content in the trash
    for [d] days and lets through content in the trash for [d + 1] days. *)
Theorem deleted_content_filter_is_strict
    (env : Env) (d : Z) (h : list event) :
  requests (snd (get_deleted_content_query_id env d h))
  = requests h ++ [AskCreateQuery (deleted_query d)]
  /\ filters (deleted_query d)
     = {[ "content_usage.content_type" := "dashboard,look";
          "days_since_moved_to_trash" := ">" +:+ str_int d ]}
  /\ filters (deleted_query d) !! "days_since_moved_to_trash"
     = Some (">" +:+ str_int d)
  /\ number_filter_admits (">" +:+ str_int d) d = Some false
  /\ number_filter_admits (">" +:+ str_int d) (d + 1) = Some true.
Proof.
  split; [| split; [| split; [| split]]].
  - rewrite get_deleted_content_query_id_run. cbn [snd].
    unfold requests. rewrite omap_app. reflexivity.
  - reflexivity.
  - reflexivity.
  - rewrite number_filter_admits_greater. f_equal. lia.
  - rewrite number_filter_admits_greater. f_equal. lia.
Qed.

(** ** What the program asks *)

Lemma requests_app (h l : list event) :
  requests (h ++ l) = requests h ++ requests l.
Proof. apply omap_app. Qed.

Lemma bind_Ok {A B : Type} (m : M A) (f : A -> M B)
    (h h' : list event) (b : B) :
  (m ≫= f) h = (Ok b, h') ->
  exists (a : A) (h1 : list event), m h = (Ok a, h1) /\ f a h1 = (Ok b, h').
Proof.
  unfold mbind, M_bind. destruct (m h) as [[a | e] h1]; [eauto | discriminate].
Qed.

Lemma get_unused_content_run (env : Env) (query_id : string) (h : list event) :
  let out := run_query env h query_id "json" true in
  get_unused_content env query_id h =
  (match out with
   | Ok payload => json_loads env payload
   | Raise e => Raise e
   end,
   h ++ [RunQuery query_id "json" true out]).
Proof.
  intros out.
  unfold get_unused_content, sdk_run_query, perform, lift, mbind, M_bind.
  fold out. destruct out as [payload | e]; [| reflexivity].
  destruct (json_loads env payload); reflexivity.
Qed.

(** A mutator asks what [mutator_requests] says, whatever it is answered. *)
Lemma run_mutator_requests
    (env : Env) (op : mutator) (i : value) (h : list event) :
  requests (snd (run_mutator env op i h))
  = requests h ++ mutator_requests op i.
Proof.
  destruct op; cbn [run_mutator mutator_requests].
  - rewrite soft_delete_dashboard_run. cbn [snd].
    rewrite !requests_app. cbn. rewrite app_nil_r. reflexivity.
  - rewrite soft_delete_look_run. cbn [snd].
    rewrite !requests_app. cbn. rewrite app_nil_r. reflexivity.
  - rewrite hard_delete_dashboard_run. cbn [snd].
    rewrite requests_app. reflexivity.
  - rewrite hard_delete_look_run. cbn [snd].
    rewrite requests_app. reflexivity.
Qed.

Lemma for_run_mutator_requests
    (env : Env) (op : mutator) (ids : list value) (h : list event) :
  requests (snd (for_ ids (run_mutator env op) h))
  = requests h ++ flat_map (mutator_requests op) ids.
Proof.
  revert h. induction ids as [| i rest IH]; intros h.
  - cbn. rewrite app_nil_r. reflexivity.
  - destruct (run_mutator_returns env op i h) as (text & h1 & Hrun & _).
    cbn [for_ flat_map]. unfold mbind, M_bind. rewrite Hrun, IH.
    pose proof (run_mutator_requests env op i h) as Hreq.
    rewrite Hrun in Hreq. cbn [snd] in Hreq.
    rewrite Hreq, <- app_assoc. reflexivity.
Qed.

(** X6. A loop of a soft-delete mutator over a list of ids sends one update
    request per id of the list, in the order of the list and as often as an
    id is in it, each with [deleted] set to [False], whatever the instance
    answers; a loop of a hard-delete mutator sends nothing. *)
Theorem mutator_loop_requests
    (env : Env) (ids : list value) (h : list event) :
  requests (snd (for_ ids (soft_delete_dashboard env) h))
  = requests h
    ++ map (fun i => AskUpdateDashboard (py_str i)
                       {| dashboard_deleted := Some false |}) ids
  /\ requests (snd (for_ ids (soft_delete_look env) h))
     = requests h
       ++ map (fun i => AskUpdateLook (py_str i)
                          {| look_deleted := Some false |}) ids
  /\ requests (snd (for_ ids hard_delete_dashboard h)) = requests h
  /\ requests (snd (for_ ids hard_delete_look h)) = requests h.
Proof.
  pose proof (for_run_mutator_requests env SoftDeleteDashboard ids h) as H1.
  pose proof (for_run_mutator_requests env SoftDeleteLook ids h) as H2.
  pose proof (for_run_mutator_requests env HardDeleteDashboard ids h) as H3.
  pose proof (for_run_mutator_requests env HardDeleteLook ids h) as H4.
  cbn [run_mutator] in *.
  assert (Hflat : forall (A B : Type) (f : A -> B) (l : list A),
             flat_map (fun x => [f x]) l = map f l).
  { intros A B f l. induction l as [| x l IH]; [reflexivity |].
    cbn. rewrite IH. reflexivity. }
  assert (Hnil : forall (A B : Type) (l : list A),
             flat_map (fun _ : A => @nil B) l = []).
  { intros A B l. induction l as [| x l IH]; [reflexivity | exact IH]. }
  unfold mutator_requests in *.
  rewrite Hflat in H1, H2. rewrite Hnil, app_nil_r in H3, H4.
  auto.
Qed.

(** ** What every run adds to the history *)

Section AddsOnly.

Context (P : event -> Prop).

Lemma adds_only_ret {A : Type} (a : A) : adds_only P (mret a).
Proof. intros h. exists []. rewrite app_nil_r. auto. Qed.

Lemma adds_only_lift {A : Type} (r : result A) : adds_only P (lift r).
Proof. intros h. exists []. rewrite app_nil_r. auto. Qed.

Lemma adds_only_mark (e : event) : P e -> adds_only P (mark e).
Proof. intros He h. exists [e]. auto. Qed.

Lemma adds_only_perform {A : Type} (ask : list event -> result A)
    (entry : result A -> event) :
  (forall out : result A, P (entry out)) -> adds_only P (perform ask entry).
Proof. intros He h. exists [entry (ask h)]. auto. Qed.

Lemma adds_only_bind {A B : Type} (m : M A) (f : A -> M B) :
  adds_only P m -> (forall a : A, adds_only P (f a)) -> adds_only P (m ≫= f).
Proof.
  intros Hm Hf h. destruct (Hm h) as (added1 & H1 & HP1).
  unfold mbind, M_bind. destruct (m h) as [[a | e] h1]; cbn [snd] in H1.
  - destruct (Hf a h1) as (added2 & H2 & HP2).
    exists (added1 ++ added2). rewrite H2, H1, <- app_assoc.
    split; [reflexivity | apply Forall_app; auto].
  - exists added1. auto.
Qed.

Lemma adds_only_try {A : Type} (body : M A) (handler : exn -> M A) :
  adds_only P body ->
  (forall e : exn, adds_only P (handler e)) ->
  adds_only P (try_except body handler).
Proof.
  intros Hm Hf h. destruct (Hm h) as (added1 & H1 & HP1).
  unfold try_except. destruct (body h) as [[a | e] h1]; cbn [snd] in H1.
  - exists added1. auto.
  - destruct (Hf e h1) as (added2 & H2 & HP2).
    exists (added1 ++ added2). rewrite H2, H1, <- app_assoc.
    split; [reflexivity | apply Forall_app; auto].
Qed.

Lemma adds_only_for {A B : Type} (l : list A) (body : A -> M B) :
  (forall x : A, adds_only P (body x)) -> adds_only P (for_ l body).
Proof.
  intros Hbody. induction l as [| x rest IH]; cbn [for_].
  - apply adds_only_ret.
  - apply adds_only_bind; [apply Hbody | intros _; exact IH].
Qed.

End AddsOnly.

Lemma run_mutator_changes_no_content (env : Env) (op : mutator) (i : value) :
  adds_only changes_no_content (run_mutator env op i).
Proof.
  destruct op; cbn [run_mutator];
    (apply adds_only_bind; [apply adds_only_mark; exact I | intros _]);
    (apply adds_only_try; [| intros e; apply adds_only_ret]);
    try apply adds_only_ret;
    (apply adds_only_bind; [| intros _; apply adds_only_ret]);
    apply adds_only_perform; intros out; reflexivity.
Qed.

Lemma notification_changes_no_content
    (env : Env) (query_id delete_type address : string) :
  adds_only changes_no_content
    (send_content_notification env query_id delete_type address).
Proof.
  apply adds_only_bind.
  - intros h. exists [Today (today env h)]. split; [reflexivity |].
    repeat constructor.
  - intros date. apply adds_only_try; [| intros e; apply adds_only_ret].
    apply adds_only_bind; [| intros plan; apply adds_only_ret].
    apply adds_only_perform. intros out. exact I.
Qed.

Lemma pass_changes_no_content {A : Type} (env : Env)
    (on_dashboard on_look : mutator) (query_id delete_type : string)
    (next : M A) :
  adds_only changes_no_content next ->
  adds_only changes_no_content
    (pass env on_dashboard on_look query_id delete_type next).
Proof.
  intros Hnext. unfold pass.
  apply adds_only_bind.
  { apply adds_only_bind.
    - apply adds_only_perform. intros out. exact I.
    - intros payload. apply adds_only_bind; [apply adds_only_lift |].
      intros rows. apply adds_only_ret. }
  intros content. apply adds_only_bind; [apply adds_only_lift |].
  intros d. apply adds_only_bind; [apply adds_only_lift |].
  intros l. apply adds_only_bind.
  { apply adds_only_for. intros i. apply run_mutator_changes_no_content. }
  intros _. apply adds_only_bind.
  { apply adds_only_for. intros i. apply run_mutator_changes_no_content. }
  intros _. apply adds_only_bind.
  { apply notification_changes_no_content. }
  intros _. exact Hnext.
Qed.

Lemma query_id_changes_no_content (env : Env) (body : WriteQuery) :
  adds_only changes_no_content
    (q ← sdk_create_query env body; mret (id q)).
Proof.
  apply adds_only_bind; [| intros q; apply adds_only_ret].
  apply adds_only_perform. intros out. exact I.
Qed.

(** X7. No run of [main], whatever the instance answers and wherever the run
    stops, takes anything from the history or adds to it a request to delete
    a dashboard or a Look, or an update whose body has [deleted] set to
    anything but [False]: as it stands the automation removes no content and
    moves none to the trash. *)
Theorem main_changes_no_content
    (env : Env) (R : Type) (request : R) (h : list event) :
  exists added : list event,
    snd (main env request h) = h ++ added
    /\ Forall changes_no_content added
    /\ (forall i : string,
          (AskDeleteDashboard i ∉ requests added)
          /\ (AskDeleteLook i ∉ requests added))
    /\ (forall (i : string) (body : WriteDashboard),
          AskUpdateDashboard i body ∈ requests added ->
          dashboard_deleted body = Some false)
    /\ (forall (i : string) (body : WriteLookWithQuery),
          AskUpdateLook i body ∈ requests added ->
          look_deleted body = Some false).
Proof.
  assert (Hmain : adds_only changes_no_content (main env request)).
  { rewrite main_passes.
    apply adds_only_bind; [apply query_id_changes_no_content |].
    intros q1. apply pass_changes_no_content.
    apply adds_only_bind; [apply query_id_changes_no_content |].
    intros q2. apply pass_changes_no_content. apply adds_only_ret. }
  destruct (Hmain h) as (added & Hadd & Hall).
  exists added. split; [exact Hadd |]. split; [exact Hall |].
  assert (Hreq : forall q : sdk_request,
             q ∈ requests added ->
             exists e : event,
               request_of e = Some q /\ changes_no_content e).
  { intros q Hq. apply list_elem_of_omap in Hq as (e & He & Hq).
    exists e. split; [exact Hq |].
    exact (proj1 (Forall_forall _ _) Hall e He). }
  split; [| split].
  - intros i. split; intros Hin; apply Hreq in Hin as (e & He & Hok);
      destruct e; try discriminate; exact Hok.
  - intros i body Hin. apply Hreq in Hin as (e & He & Hok).
    destruct e; try discriminate. injection He as -> ->. exact Hok.
  - intros i body Hin. apply Hreq in Hin as (e & He & Hok).
    destruct e; try discriminate. injection He as -> ->. exact Hok.
Qed.

(** ** Runs that stop *)

Lemma get_dashboard_ids_raises_KeyError (content : list row) (e : exn) :
  get_dashboard_ids content = Raise e -> exists key : string, e = KeyError key.
Proof.
  induction content as [| r rest IH]; [discriminate |].
  rewrite get_dashboard_ids_cons.
  destruct (r !! "content_usage.content_type") as [t |];
    [| intros [= <-]; eauto].
  destruct (eq_str t "dashboard"); [| exact IH].
  destruct (r !! "dashboard.id") as [i |]; [| intros [= <-]; eauto].
  destruct (is_not_None i); [| exact IH].
  destruct (get_dashboard_ids rest); [discriminate |].
  intros [= <-]. apply IH. reflexivity.
Qed.

Lemma get_look_ids_raises_KeyError (content : list row) (e : exn) :
  get_look_ids content = Raise e -> exists key : string, e = KeyError key.
Proof.
  induction content as [| r rest IH]; [discriminate |].
  rewrite get_look_ids_cons.
  destruct (r !! "content_usage.content_type") as [t |];
    [| intros [= <-]; eauto].
  destruct (eq_str t "look"); [| exact IH].
  destruct (r !! "look.id") as [i |]; [| intros [= <-]; eauto].
  destruct (get_look_ids rest); [discriminate |].
  intros [= <-]. apply IH. reflexivity.
Qed.

Ltac run_main_to_selection :=
  rewrite main_passes; unfold mbind at 1, M_bind at 1;
  rewrite get_unused_content_query_id_run; cbv zeta.

(** X8. [main] catches nothing of what its first query steps raise: when the
    instance refuses to register the query of the unused content, or raises
    on running it, or answers a payload the decoder raises on, [main] raises
    that very exception, and the history holds the requests made so far and
    nothing else; no mutator was entered, no e-mail was scheduled and the
    hard-delete pass was not begun. *)
Theorem main_stops_at_failing_query
    (env : Env) (R : Type) (request : R) (h : list event) :
  let q := unused_content_query DAYS_BEFORE_SOFT_DELETE in
  (forall e : exn,
     create_query env h q = Raise e ->
     main env request h = (Raise e, h ++ [CreateQuery q (Raise e)]))
  /\ (forall (q1 : Query) (e : exn),
        create_query env h q = Ok q1 ->
        run_query env (h ++ [CreateQuery q (Ok q1)]) (id q1) "json" true
        = Raise e ->
        main env request h =
        (Raise e,
         (h ++ [CreateQuery q (Ok q1)])
         ++ [RunQuery (id q1) "json" true (Raise e)]))
  /\ (forall (q1 : Query) (payload : string) (e : exn),
        create_query env h q = Ok q1 ->
        run_query env (h ++ [CreateQuery q (Ok q1)]) (id q1) "json" true
        = Ok payload ->
        json_loads env payload = Raise e ->
        main env request h =
        (Raise e,
         (h ++ [CreateQuery q (Ok q1)])
         ++ [RunQuery (id q1) "json" true (Ok payload)])).
Proof.
  intros q. split; [| split].
  - intros e Hc. run_main_to_selection. fold q. rewrite Hc. reflexivity.
  - intros q1 e Hc Hr. run_main_to_selection. fold q. rewrite Hc.
    unfold pass at 1, mbind at 1, M_bind at 1.
    rewrite get_unused_content_run. cbv zeta. rewrite Hr. reflexivity.
  - intros q1 payload e Hc Hr Hj. run_main_to_selection. fold q. rewrite Hc.
    unfold pass at 1, mbind at 1, M_bind at 1.
    rewrite get_unused_content_run. cbv zeta. rewrite Hr, Hj. reflexivity.
Qed.

Lemma main_stops_at_failing_query_witness :
  fst (main (failing_env true false false []) tt [])
  = Raise (Exception "403 Forbidden")
  /\ fst (main (failing_env false true false []) tt [])
     = Raise (Exception "504 Gateway Timeout")
  /\ requests (snd (main (failing_env false false true []) tt []))
     = [AskCreateQuery (unused_content_query DAYS_BEFORE_SOFT_DELETE);
        AskRunQuery "unused" "json" true].
Proof.
  split; [| split].
  - rewrite (proj1 (main_stops_at_failing_query
                      (failing_env true false false []) unit tt [])
               (Exception "403 Forbidden")); reflexivity.
  - rewrite (proj1 (proj2 (main_stops_at_failing_query
                             (failing_env false true false []) unit tt []))
               {| id := "unused" |} (Exception "504 Gateway Timeout"));
      reflexivity.
  - rewrite (proj2 (proj2 (main_stops_at_failing_query
                             (failing_env false false true []) unit tt []))
               {| id := "unused" |} "unused"
               (Exception "Expecting value: line 1 column 1 (char 0)"));
      reflexivity.
Defined.

(** X9. A row a selector raises on stops [main] before anything is updated:
    when the rows of the unused content make [get_dashboard_ids] raise, or
    make [get_look_ids] raise after [get_dashboard_ids] returned, [main]
    raises that exception (a [KeyError]) with the creation and the running of
    the query as its only requests, even if the rows before the unreadable
    one could be archived. *)
Theorem main_stops_at_unreadable_row
    (env : Env) (R : Type) (request : R) (h : list event)
    (q1 : Query) (payload : string) (rows : list row) (e : exn) :
  let q := unused_content_query DAYS_BEFORE_SOFT_DELETE in
  create_query env h q = Ok q1 ->
  run_query env (h ++ [CreateQuery q (Ok q1)]) (id q1) "json" true
  = Ok payload ->
  json_loads env payload = Ok rows ->
  (get_dashboard_ids rows = Raise e
   \/ (exists ids : list value,
         get_dashboard_ids rows = Ok ids /\ get_look_ids rows = Raise e)) ->
  main env request h =
  (Raise e,
   (h ++ [CreateQuery q (Ok q1)])
   ++ [RunQuery (id q1) "json" true (Ok payload)])
  /\ exists key : string, e = KeyError key.
Proof.
  intros q Hc Hr Hj Hsel. split.
  - run_main_to_selection. fold q. rewrite Hc.
    unfold pass at 1, mbind at 1, M_bind at 1.
    rewrite get_unused_content_run. cbv zeta. rewrite Hr, Hj.
    unfold mbind at 1, M_bind at 1, lift at 1.
    destruct Hsel as [Hd | (ids & Hd & Hl)]; rewrite Hd; [reflexivity |].
    unfold mbind at 1, M_bind at 1, lift at 1. rewrite Hl. reflexivity.
  - destruct Hsel as [Hd | (ids & _ & Hl)].
    + exact (get_dashboard_ids_raises_KeyError _ _ Hd).
    + exact (get_look_ids_raises_KeyError _ _ Hl).
Qed.

Lemma main_stops_at_unreadable_row_witness :
  main (failing_env false false false
          [dashboard_row (VStr "7"); dashboard_row_without_id]) tt []
  = (Raise (KeyError "dashboard.id"),
     [CreateQuery (unused_content_query DAYS_BEFORE_SOFT_DELETE)
        (Ok {| id := "unused" |});
      RunQuery "unused" "json" true (Ok "unused")]).
Proof.
  apply (main_stops_at_unreadable_row
           (failing_env false false false
              [dashboard_row (VStr "7"); dashboard_row_without_id])
           unit tt [] {| id := "unused" |} "unused"
           [dashboard_row (VStr "7"); dashboard_row_without_id]
           (KeyError "dashboard.id")).
  - reflexivity.
  - reflexivity.
  - reflexivity.
  - left. vm_compute. reflexivity.
Defined.

(** ** Runs that return *)

Lemma get_unused_content_Ok
    (env : Env) (query_id : string) (h h' : list event) (rows : list row) :
  get_unused_content env query_id h = (Ok rows, h') ->
  exists payload : string,
    json_loads env payload = Ok rows
    /\ h' = h ++ [RunQuery query_id "json" true (Ok payload)].
Proof.
  rewrite get_unused_content_run. cbv zeta.
  destruct (run_query env h query_id "json" true) as [payload | e];
    [| discriminate].
  intros [= Hrows <-]. eauto.
Qed.

Lemma for_run_mutator_Ok (env : Env) (op : mutator) (ids : list value)
    (h h' : list event) (u : unit) :
  for_ ids (run_mutator env op) h = (Ok u, h') ->
  requests h' = requests h ++ flat_map (mutator_requests op) ids
  /\ payloads h' = payloads h.
Proof.
  intros Hfor.
  pose proof (for_run_mutator_requests env op ids h) as Hreq.
  destruct (for_run_mutator env op ids h) as (h1 & Hfor1 & _ & Hp).
  rewrite Hfor in Hreq, Hfor1. injection Hfor1 as _ <-. auto.
Qed.

Lemma send_content_notification_Ok
    (env : Env) (query_id delete_type address : string)
    (h h' : list event) (o : ScheduledPlan + string) :
  send_content_notification env query_id delete_type address h = (Ok o, h') ->
  exists date : string,
    requests h' =
    requests h
    ++ [AskScheduledPlanRunOnce
          (unused_content_notification query_id delete_type address date)]
    /\ payloads h' = payloads h.
Proof.
  rewrite send_content_notification_run. cbv zeta. intros [= _ <-].
  exists (today env h). rewrite !requests_app, !payloads_app. cbn.
  rewrite !app_nil_r. auto.
Qed.

(** One pass that returns: what it asked. *)
Lemma pass_Ok {A : Type} (env : Env) (on_dashboard on_look : mutator)
    (query_id delete_type : string) (next : M A)
    (h h' : list event) (a : A) :
  pass env on_dashboard on_look query_id delete_type next h = (Ok a, h') ->
  exists (payload date : string) (rows : list row)
         (dashboard_ids look_ids : list value) (h1 : list event),
    json_loads env payload = Ok rows
    /\ get_dashboard_ids rows = Ok dashboard_ids
    /\ get_look_ids rows = Ok look_ids
    /\ next h1 = (Ok a, h')
    /\ payloads h1 = payloads h ++ [payload]
    /\ requests h1 =
       requests h
       ++ [AskRunQuery query_id "json" true]
       ++ flat_map (mutator_requests on_dashboard) dashboard_ids
       ++ flat_map (mutator_requests on_look) look_ids
       ++ [AskScheduledPlanRunOnce
             (unused_content_notification query_id delete_type
                NOTIFICATION_EMAIL_ADDRESS date)].
Proof.
  unfold pass. intros H.
  apply bind_Ok in H as (rows & h1 & Hrun & H).
  apply bind_Ok in H as (d & h2 & Hd & H).
  apply bind_Ok in H as (l & h3 & Hl & H).
  apply bind_Ok in H as (u1 & h4 & Hfor1 & H).
  apply bind_Ok in H as (u2 & h5 & Hfor2 & H).
  apply bind_Ok in H as (o & h6 & Hsend & H).
  apply get_unused_content_Ok in Hrun as (payload & Hrows & ->).
  unfold lift in Hd, Hl. injection Hd as Hd <-. injection Hl as Hl <-.
  apply for_run_mutator_Ok in Hfor1 as [Hr4 Hp4].
  apply for_run_mutator_Ok in Hfor2 as [Hr5 Hp5].
  apply send_content_notification_Ok in Hsend as (date & Hr6 & Hp6).
  exists payload, date, rows, d, l, h6.
  repeat (split; [assumption |]). split.
  - rewrite Hp6, Hp5, Hp4, payloads_app. reflexivity.
  - rewrite Hr6, Hr5, Hr4, requests_app. cbn [requests omap list_omap request_of].
    rewrite <- !app_assoc. reflexivity.
Qed.

Lemma query_id_Ok (env : Env) (body : WriteQuery)
    (h h' : list event) (query_id : string) :
  (q ← sdk_create_query env body; mret (id q)) h = (Ok query_id, h') ->
  requests h' = requests h ++ [AskCreateQuery body]
  /\ payloads h' = payloads h.
Proof.
  unfold sdk_create_query, perform, mbind, M_bind.
  destruct (create_query env h body) as [q | e]; [| discriminate].
  intros [= _ <-]. rewrite requests_app, payloads_app. cbn.
  rewrite app_nil_r. auto.
Qed.

Lemma flat_map_mutator_requests (op : mutator) (ids : list value) :
  flat_map (mutator_requests op) ids =
  match op with
  | SoftDeleteDashboard =>
      map (fun i => AskUpdateDashboard (py_str i)
                      {| dashboard_deleted := Some false |}) ids
  | SoftDeleteLook =>
      map (fun i => AskUpdateLook (py_str i)
                      {| look_deleted := Some false |}) ids
  | HardDeleteDashboard | HardDeleteLook => []
  end.
Proof.
  destruct op; induction ids as [| i rest IH]; try reflexivity;
    cbn [flat_map map mutator_requests app]; rewrite IH; reflexivity.
Qed.

(** A run of [main] that returns: everything it asked, in order. *)
Lemma main_Ok (env : Env) (R : Type) (request : R)
    (h h' : list event) (v : string) :
  main env request h = (Ok v, h') ->
  exists (unused_id trashed_id unused trashed soft_date hard_date : string)
         (unused_content deleted_content : list row)
         (unused_dashboard_ids unused_look_ids : list value),
    payloads h' = payloads h ++ [unused; trashed]
    /\ json_loads env unused = Ok unused_content
    /\ json_loads env trashed = Ok deleted_content
    /\ get_dashboard_ids unused_content = Ok unused_dashboard_ids
    /\ get_look_ids unused_content = Ok unused_look_ids
    /\ requests h' =
       requests h
       ++ [AskCreateQuery (unused_content_query DAYS_BEFORE_SOFT_DELETE);
           AskRunQuery unused_id "json" true]
       ++ map (fun i => AskUpdateDashboard (py_str i)
                          {| dashboard_deleted := Some false |})
            unused_dashboard_ids
       ++ map (fun i => AskUpdateLook (py_str i)
                          {| look_deleted := Some false |})
            unused_look_ids
       ++ [AskScheduledPlanRunOnce
             (unused_content_notification unused_id "soft"
                NOTIFICATION_EMAIL_ADDRESS soft_date);
           AskCreateQuery (deleted_query DAYS_BEFORE_HARD_DELETE);
           AskRunQuery trashed_id "json" true;
           AskScheduledPlanRunOnce
             (unused_content_notification trashed_id "hard"
                NOTIFICATION_EMAIL_ADDRESS hard_date)].
Proof.
  rewrite main_passes. intros H.
  apply bind_Ok in H as (id1 & h1 & Hq1 & H).
  apply query_id_Ok in Hq1 as [Hr1 Hp1].
  apply pass_Ok in H
    as (p1 & date1 & rows1 & d1 & l1 & h2 & Hj1 & Hd1 & Hl1 & H & Hp2 & Hr2).
  apply bind_Ok in H as (id2 & h3 & Hq2 & H).
  apply query_id_Ok in Hq2 as [Hr3 Hp3].
  apply pass_Ok in H
    as (p2 & date2 & rows2 & d2 & l2 & h4 & Hj2 & Hd2 & Hl2 & H & Hp4 & Hr4).
  injection H as _ <-.
  exists id1, id2, p1, p2, date1, date2, rows1, rows2, d1, l1.
  split; [rewrite Hp4, Hp3, Hp2, Hp1, <- app_assoc; reflexivity |].
  repeat (split; [assumption |]).
  rewrite Hr4, Hr3, Hr2, Hr1, !flat_map_mutator_requests.
  rewrite <- !app_assoc. cbn [app]. reflexivity.
Qed.



(** X11. The null look id that [get_look_ids] lets through is acted upon: in
    a run of [main] that returns, a look row of the unused content whose
    look id is null has [update_look] called with the text [None] for an id
    (and [deleted] set to [False]). *)
Theorem null_look_id_is_sent_as_None (env : Env) (R : Type) (request : R)
    (h h' : list event) (v : string)
    (unused : string) (answered : list string)
    (unused_content : list row) (r : row) :
  main env request h = (Ok v, h') ->
  payloads h' = payloads h ++ unused :: answered ->
  json_loads env unused = Ok unused_content ->
  r ∈ unused_content ->
  r !! "content_usage.content_type" = Some (VStr "look") ->
  r !! "look.id" = Some VNone ->
  AskUpdateLook "None" {| look_deleted := Some false |} ∈ requests h'.
Proof.
  intros Hrun Hp Hj Hin Ht Hi.
  destruct (main_Ok env R request h h' v Hrun)
    as (id1 & id2 & p1 & p2 & date1 & date2 & rows1 & rows2 & d1 & l1
        & Hp' & Hj1 & _ & _ & Hl1 & Hreq).
  rewrite Hp' in Hp. apply app_inv_head in Hp. injection Hp as <- _.
  rewrite Hj in Hj1. injection Hj1 as <-.
  apply selected_looks in Hl1. subst l1.
  assert (Hnull : VNone ∈ lookIds unused_content).
  { unfold lookIds. apply list_elem_of_omap. exists r. split; [| exact Hi].
    apply list_elem_of_In, filter_In. split.
    - apply list_elem_of_In, Hin.
    - apply has_type_spec, Ht. }
  rewrite Hreq. apply list_elem_of_In.
  apply in_or_app. right. apply in_or_app. right.
  apply in_or_app. right. apply in_or_app. left.
  apply list_elem_of_In in Hnull.
  exact (in_map (fun i => AskUpdateLook (py_str i)
                            {| look_deleted := Some false |})
           _ VNone Hnull).
Qed.

Lemma null_look_id_is_sent_as_None_witness :
  AskUpdateLook "None" {| look_deleted := Some false |}
  ∈ requests (snd (main sample_env tt [])).
Proof.
  apply (null_look_id_is_sent_as_None sample_env unit tt []
           (snd (main sample_env tt [])) main_status
           "unused" ["trashed"] sample_unused (look_row VNone)).
  - vm_compute. reflexivity.
  - vm_compute. reflexivity.
  - reflexivity.
  - do 4 right. left.
  - reflexivity.
  - reflexivity.
Defined.

(** * Which key a selector reports *)

(** X12. The [KeyError] of a selector names the key its first unreadable row
    lacks, whatever the rows after it are like: after rows it can read, a row
    without a content type makes it raise [KeyError] of
    [content_usage.content_type], and a row of its type without an id makes
    it raise [KeyError] of [dashboard.id] (of [look.id] for
    [get_look_ids]). *)
Theorem selectors_raise_at_first_unreadable_row
    (before after : list row) (r : row) :
  (Forall dashboard_readable before ->
   (r !! "content_usage.content_type" = None ->
    get_dashboard_ids (before ++ r :: after)
    = Raise (KeyError "content_usage.content_type"))
   /\ (r !! "content_usage.content_type" = Some (VStr "dashboard") ->
       r !! "dashboard.id" = None ->
       get_dashboard_ids (before ++ r :: after)
       = Raise (KeyError "dashboard.id")))
  /\ (Forall look_readable before ->
      (r !! "content_usage.content_type" = None ->
       get_look_ids (before ++ r :: after)
       = Raise (KeyError "content_usage.content_type"))
      /\ (r !! "content_usage.content_type" = Some (VStr "look") ->
          r !! "look.id" = None ->
          get_look_ids (before ++ r :: after) = Raise (KeyError "look.id"))).
Proof.
  split; intros Hall.
  - apply get_dashboard_ids_readable in Hall.
    unfold get_dashboard_ids in *.
    rewrite comprehension_app, Hall. unfold mbind at 1, result_bind at 1.
    fold (get_dashboard_ids (r :: after)). rewrite get_dashboard_ids_cons.
    split.
    + intros ->. reflexivity.
    + intros -> ->. reflexivity.
  - apply get_look_ids_readable in Hall.
    unfold get_look_ids in *.
    rewrite comprehension_app, Hall. unfold mbind at 1, result_bind at 1.
    fold (get_look_ids (r :: after)). rewrite get_look_ids_cons.
    split.
    + intros ->. reflexivity.
    + intros -> ->. reflexivity.
Qed.

Lemma selectors_raise_at_first_unreadable_row_witness :
  get_dashboard_ids
    (sample_unused ++ dashboard_row_without_id :: [untyped_row])
  = Raise (KeyError "dashboard.id")
  /\ get_look_ids (sample_unused ++ untyped_row :: [look_row_without_id])
     = Raise (KeyError "content_usage.content_type").
Proof.
  split.
  - apply (proj1 (selectors_raise_at_first_unreadable_row
                    sample_unused [untyped_row] dashboard_row_without_id)).
    + repeat constructor; vm_compute; eauto.
    + reflexivity.
    + reflexivity.
  - apply (proj2 (selectors_raise_at_first_unreadable_row
                    sample_unused [look_row_without_id] untyped_row)).
    + repeat constructor; vm_compute; eauto.
    + reflexivity.
Defined.
